(** * The practice timer: session state machine of the [useTimer] hook

    A shallow embedding of the hook that drives the work/break countdown:
    its state initialiser, the operations it hands to the user interface
    ([updateSettings], [startTimer], [pauseTimer], [resetTimer],
    [skipSession]), the periodic [updateTimer] callback and the
    visibility handler.

    The hook mixes a React state value, a handful of mutable references,
    the browser's key/value store and fire-and-forget notifications.  All of
    that is gathered in one record, [World], and every callback is a
    computation in a state monad over it.  Wall-clock readings ([Date.now()],
    [new Date().toDateString()]) are supplied by a [Clock] argument. *)

From Stdlib Require Import ZArith List String Bool Lia DecimalString.
Import ListNotations.
Local Open Scope string_scope.
Local Open Scope Z_scope.

Set Implicit Arguments.

(** ** JavaScript arithmetic on integers *)

(** [Math.ceil(a / b)] for integers [a] and a positive [b]. *)
Definition Math_ceil_div (a b : Z) : Z := - ((- a) / b).

(** A number interpolated into a template string. *)
Definition show (z : Z) : string := NilZero.string_of_int (Z.to_int z).

(** ** Types: [TimerSettings] and [TimerState] *)

Record TimerSettings : Type := mkSettings {
  workDuration : Z;          (* in minutes *)
  breakDuration : Z;         (* in minutes *)
  intervals : Z;
  notificationVolume : Z;    (* 0-100 *)
  notificationSound : string;
  beepCount : Z
}.

Record TimerState : Type := mkState {
  timeLeft : Z;              (* in seconds *)
  isRunning : bool;
  isPaused : bool;
  currentInterval : Z;
  isWorkSession : bool;
  settings : TimerSettings
}.

(** [Partial<TimerSettings>]: every field optional. *)
Record PartialSettings : Type := mkPartial {
  p_workDuration : option Z;
  p_breakDuration : option Z;
  p_intervals : option Z;
  p_notificationVolume : option Z;
  p_notificationSound : option string;
  p_beepCount : option Z
}.

Definition override {A : Type} (new : option A) (old : A) : A :=
  match new with Some v => v | None => old end.

(** The object spread [{ ...s, ...p }]. *)
Definition spread_settings (s : TimerSettings) (p : PartialSettings)
  : TimerSettings :=
  {| workDuration := override (p_workDuration p) (workDuration s);
     breakDuration := override (p_breakDuration p) (breakDuration s);
     intervals := override (p_intervals p) (intervals s);
     notificationVolume :=
       override (p_notificationVolume p) (notificationVolume s);
     notificationSound :=
       override (p_notificationSound p) (notificationSound s);
     beepCount := override (p_beepCount p) (beepCount s) |}.

(** The object spreads [{ ...prev, field: v }] used by the callbacks. *)
Definition with_timeLeft (v : Z) (s : TimerState) : TimerState :=
  mkState v (isRunning s) (isPaused s) (currentInterval s)
          (isWorkSession s) (settings s).

Definition with_flags (running paused : bool) (s : TimerState) : TimerState :=
  mkState (timeLeft s) running paused (currentInterval s)
          (isWorkSession s) (settings s).

Definition with_currentInterval (v : Z) (s : TimerState) : TimerState :=
  mkState (timeLeft s) (isRunning s) (isPaused s) v
          (isWorkSession s) (settings s).

Definition with_isWorkSession (v : bool) (s : TimerState) : TimerState :=
  mkState (timeLeft s) (isRunning s) (isPaused s) (currentInterval s)
          v (settings s).

Definition with_settings (v : TimerSettings) (s : TimerState) : TimerState :=
  mkState (timeLeft s) (isRunning s) (isPaused s) (currentInterval s)
          (isWorkSession s) v.

(** The status shown by the display: [isRunning ? 'Running' : isPaused ?
    'Paused' : 'Ready']. *)
Inductive Status : Type := Idle | Running | Paused.

Definition status (s : TimerState) : Status :=
  if isRunning s then Running else if isPaused s then Paused else Idle.

(** ** The key/value store *)

(** What the hook does with a stored text is test whether it is the empty
    string and hand it to [JSON.parse].  A text is therefore kept as what
    [JSON.parse] makes of it: [Blank] is the empty string, [Garbled] is a
    non-empty text that [JSON.parse] rejects, [Null] is the text [null],
    which parses to [null], and [Encoded a] is [JSON.stringify a], which
    parses back to the record [a].  Texts that parse to anything else (a
    number, a string, an array, a record of another shape) are not
    covered: reading a property of such a value does not throw, and the
    state built from it has no number on its clock. *)
Inductive text (A : Type) : Type :=
| Blank : text A
| Garbled : text A
| Null : text A
| Encoded : A -> text A.

Arguments Blank {A}.
Arguments Garbled {A}.
Arguments Null {A}.
Arguments Encoded {A} _.

Record Progress : Type := mkProgress {
  progress_currentInterval : Z;
  lastDate : string
}.

(** [localStorage], one field per key the hook uses; [None] is a key that
    is not set ([getItem] returns [null]).  Reads and writes of the store
    are taken to succeed. *)
Record Storage : Type := mkStorage {
  pomodoro_settings : option (text TimerSettings);   (* STORAGE_KEY *)
  pomodoro_progress : option (text Progress);        (* PROGRESS_STORAGE_KEY *)
  pomodoro_settings_version : option string          (* SETTINGS_VERSION_KEY *)
}.

Definition CURRENT_VERSION : string := "2.0".

Definition defaultSettings : TimerSettings :=
  {| workDuration := 20;
     breakDuration := 5;
     intervals := 6;
     notificationVolume := 50;
     notificationSound := "bell";
     beepCount := 3 |}.

Definition set_settings_item (v : option (text TimerSettings)) (ls : Storage)
  : Storage :=
  mkStorage v (pomodoro_progress ls) (pomodoro_settings_version ls).

Definition set_progress_item (v : option (text Progress)) (ls : Storage)
  : Storage :=
  mkStorage (pomodoro_settings ls) v (pomodoro_settings_version ls).

Definition set_version_item (v : option string) (ls : Storage) : Storage :=
  mkStorage (pomodoro_settings ls) (pomodoro_progress ls) v.

(** Truthiness of what [getItem] returned: [null] and [''] are falsy. *)
Definition truthy_text {A : Type} (t : option (text A)) : bool :=
  match t with
  | None | Some Blank => false
  | Some Garbled | Some Null | Some (Encoded _) => true
  end.

(** The outcome of an expression that may throw. *)
Inductive JSError : Type := SyntaxError | TypeError.

Inductive completion (A : Type) : Type :=
| Normal : A -> completion A
| Throw : JSError -> completion A.

Arguments Normal {A} _.
Arguments Throw {A} _.

(** What [JSON.parse] returns: [null] or a record. *)
Inductive json (A : Type) : Type :=
| JSnull : json A
| JSrecord : A -> json A.

Arguments JSnull {A}.
Arguments JSrecord {A} _.

Definition JSON_parse {A : Type} (t : text A) : completion (json A) :=
  match t with
  | Encoded a => Normal (JSrecord a)
  | Null => Normal JSnull
  | Blank | Garbled => Throw SyntaxError
  end.

(** Reading a property, [v.field]: a [TypeError] on [null]. *)
Definition property_of {A : Type} (v : json A) : completion A :=
  match v with
  | JSrecord a => Normal a
  | JSnull => Throw TypeError
  end.

(** ** The clock *)

Record Clock : Type := mkClock {
  Date_now : Z;            (* milliseconds *)
  toDateString : string    (* today's local calendar date *)
}.

(** ** The world the hook lives in *)

(** What the hook does to its collaborators, most recent first. *)
Inductive Effect : Type :=
| Notified (title body : string)      (* showNotification(title, body) *)
| ProgressSaved (index : Z)           (* saveProgress(index) *)
| SettingsSaved                       (* updateSettings' two setItem calls *)
| WakeLockRequested
| WakeLockReleased.

Record World : Type := mkWorld {
  state : TimerState;
  expectedEndTimeRef : option Z;
  startTimeRef : option Z;
  lastUpdateRef : option Z;
  wakeLockRef : bool;                 (* a sentinel is held *)
  wakeLockSupported : bool;           (* 'wakeLock' in navigator, granted *)
  localStorage : Storage;
  trace : list Effect
}.

(** ** A state monad over [World] *)

Definition M (A : Type) : Type := World -> A * World.

Definition ret {A : Type} (a : A) : M A := fun w => (a, w).

Definition bind {A B : Type} (c : M A) (k : A -> M B) : M B :=
  fun w => let (a, w') := c w in k a w'.

Declare Scope timer_scope.
Delimit Scope timer_scope with timer.
Notation "x <- c ;; k" := (bind c (fun x => k))
  (at level 61, c at next level, right associativity) : timer_scope.
Notation "c ;; k" := (bind c (fun _ => k))
  (at level 61, right associativity) : timer_scope.
Local Open Scope timer_scope.

Definition exec {A : Type} (c : M A) (w : World) : World := snd (c w).

Definition modify (f : World -> World) : M unit := fun w => (tt, f w).

Definition reads {A : Type} (f : World -> A) : M A := fun w => (f w, w).

Definition put_state (s : TimerState) (w : World) : World :=
  mkWorld s (expectedEndTimeRef w) (startTimeRef w) (lastUpdateRef w)
          (wakeLockRef w) (wakeLockSupported w) (localStorage w) (trace w).

Definition put_expectedEndTimeRef (v : option Z) (w : World) : World :=
  mkWorld (state w) v (startTimeRef w) (lastUpdateRef w)
          (wakeLockRef w) (wakeLockSupported w) (localStorage w) (trace w).

Definition put_startTimeRef (v : option Z) (w : World) : World :=
  mkWorld (state w) (expectedEndTimeRef w) v (lastUpdateRef w)
          (wakeLockRef w) (wakeLockSupported w) (localStorage w) (trace w).

Definition put_lastUpdateRef (v : option Z) (w : World) : World :=
  mkWorld (state w) (expectedEndTimeRef w) (startTimeRef w) v
          (wakeLockRef w) (wakeLockSupported w) (localStorage w) (trace w).

Definition put_wakeLockRef (v : bool) (w : World) : World :=
  mkWorld (state w) (expectedEndTimeRef w) (startTimeRef w) (lastUpdateRef w)
          v (wakeLockSupported w) (localStorage w) (trace w).

Definition put_localStorage (v : Storage) (w : World) : World :=
  mkWorld (state w) (expectedEndTimeRef w) (startTimeRef w) (lastUpdateRef w)
          (wakeLockRef w) (wakeLockSupported w) v (trace w).

Definition emit (e : Effect) (w : World) : World :=
  mkWorld (state w) (expectedEndTimeRef w) (startTimeRef w) (lastUpdateRef w)
          (wakeLockRef w) (wakeLockSupported w) (localStorage w)
          (e :: trace w).

(** [setState(prev => ...)]: the updater reads the current state, may act on
    the references and collaborators, and its result becomes the state. *)
Definition setState (updater : TimerState -> M TimerState) : M unit :=
  prev <- reads state ;;
  next <- updater prev ;;
  modify (put_state next).

(** [!ref.current] for a reference of type [number | null]. *)
Definition unset (r : option Z) : bool :=
  match r with
  | None => true
  | Some z => z =? 0
  end.

(** ** Collaborators *)

(** [requestWakeLock]: best effort; the sentinel is kept when the platform
    grants one. *)
Definition requestWakeLock : M unit :=
  modify (emit WakeLockRequested) ;;
  supported <- reads wakeLockSupported ;;
  if supported then modify (put_wakeLockRef true) else ret tt.

(** [releaseWakeLock]: releases the sentinel when one is held. *)
Definition releaseWakeLock : M unit :=
  held <- reads wakeLockRef ;;
  if held
  then modify (emit WakeLockReleased) ;; modify (put_wakeLockRef false)
  else ret tt.

(** [saveProgress(currentInterval)]: writes [{ currentInterval, lastDate:
    today }] under the progress key. *)
Definition saveProgress (clk : Clock) (index : Z) : M unit :=
  let progress := mkProgress index (toDateString clk) in
  ls <- reads localStorage ;;
  modify (put_localStorage (set_progress_item (Some (Encoded progress)) ls)) ;;
  modify (emit (ProgressSaved index)).

(** [showNotification(title, body)]: a platform notification and a sound;
    failures of either are swallowed, so only the call is recorded. *)
Definition showNotification (title body : string) : M unit :=
  modify (emit (Notified title body)).

(** ** The state initialiser of [useState] *)

(** The first half of the initialiser: which settings to use. *)
Definition load_settings (ls : Storage)
  : completion (json TimerSettings) * Storage :=
  let savedVersion := pomodoro_settings_version ls in
  let savedSettings := pomodoro_settings ls in
  if truthy_text savedSettings &&
     match savedVersion with
     | Some v => String.eqb v CURRENT_VERSION
     | None => false
     end
  then
    match savedSettings with
    | Some t => (JSON_parse t, ls)
    | None => (Normal JSnull, ls)          (* excluded by [truthy_text] *)
    end
  else
    (* removeItem, then setItem twice *)
    let ls1 := set_settings_item None ls in
    let ls2 := set_settings_item (Some (Encoded defaultSettings)) ls1 in
    let ls3 := set_version_item (Some CURRENT_VERSION) ls2 in
    (Normal (JSrecord defaultSettings), ls3).

(** The second half: today's progress, or a fresh one. *)
Definition load_progress (clk : Clock) (ls : Storage) : completion Progress :=
  let today := toDateString clk in
  let savedProgress := pomodoro_progress ls in
  let progress := mkProgress 1 today in
  if truthy_text savedProgress
  then
    match savedProgress with
    | Some t =>
        match JSON_parse t with
        | Normal parsedProgress =>
            (* parsedProgress.lastDate *)
            match property_of parsedProgress with
            | Normal parsed =>
                if String.eqb (lastDate parsed) today
                then Normal parsed
                else Normal progress
            | Throw e => Throw e
            end
        | Throw e => Throw e
        end
    | None => Throw TypeError              (* excluded by [truthy_text] *)
    end
  else Normal progress.

(** The initialiser passed to [useState]: the state the hook starts from
    and the store it leaves behind, or the error it throws. *)
Definition useTimer_init (clk : Clock) (ls : Storage)
  : completion TimerState * Storage :=
  match load_settings ls with
  | (Throw e, ls') => (Throw e, ls')
  | (Normal parsedSettings, ls') =>
      match load_progress clk ls' with
      | Throw e => (Throw e, ls')
      | Normal progress =>
          (* settings.workDuration *)
          match property_of parsedSettings with
          | Throw e => (Throw e, ls')
          | Normal settings =>
              (Normal {| timeLeft := workDuration settings * 60;
                         isRunning := false;
                         isPaused := false;
                         currentInterval := progress_currentInterval progress;
                         isWorkSession := true;
                         settings := settings |},
               ls')
          end
      end
  end.

(** The world right after mounting: no reference is set yet. *)
Definition mount (s : TimerState) (ls : Storage) (supported : bool) : World :=
  {| state := s;
     expectedEndTimeRef := None;
     startTimeRef := None;
     lastUpdateRef := None;
     wakeLockRef := false;
     wakeLockSupported := supported;
     localStorage := ls;
     trace := [] |}.

(** ** The callbacks *)

Definition updateSettings (newSettings : PartialSettings) : M unit :=
  setState (fun prev =>
    let updatedSettings := spread_settings (settings prev) newSettings in
    ls <- reads localStorage ;;
    modify (put_localStorage
              (set_version_item (Some CURRENT_VERSION)
                 (set_settings_item (Some (Encoded updatedSettings)) ls))) ;;
    modify (emit SettingsSaved) ;;
    let isCurrentlyRunning := isRunning prev in
    ret (with_timeLeft
           (if negb isCurrentlyRunning
            then (if isWorkSession prev
                  then workDuration updatedSettings
                  else breakDuration updatedSettings) * 60
            else timeLeft prev)
           (with_settings updatedSettings prev))).

Definition startTimer (clk : Clock) : M unit :=
  requestWakeLock ;;
  let now := Date_now clk in
  modify (put_startTimeRef (Some now)) ;;
  modify (put_lastUpdateRef (Some now)) ;;
  st <- reads state ;;
  modify (put_expectedEndTimeRef (Some (now + timeLeft st * 1000))) ;;
  setState (fun prev => ret (with_flags true false prev)).

Definition pauseTimer : M unit :=
  releaseWakeLock ;;
  setState (fun prev => ret (with_flags false true prev)).

Definition resetTimer (clk : Clock) : M unit :=
  releaseWakeLock ;;
  modify (put_startTimeRef None) ;;
  modify (put_lastUpdateRef None) ;;
  modify (put_expectedEndTimeRef None) ;;
  (* Reset progress for the day *)
  saveProgress clk 1 ;;
  setState (fun prev =>
    ret (with_timeLeft
           (if isWorkSession prev
            then workDuration (settings prev) * 60
            else breakDuration (settings prev) * 60)
           (with_currentInterval 1 (with_flags false false prev)))).

(** The earlier revision of the hook (src/hooks/useTimer.ts), which keeps no
    progress: its reset restarts the current session and leaves the index
    alone. *)
Module Legacy.

Definition resetTimer : M unit :=
  releaseWakeLock ;;
  modify (put_startTimeRef None) ;;
  modify (put_lastUpdateRef None) ;;
  modify (put_expectedEndTimeRef None) ;;
  setState (fun prev =>
    ret (with_timeLeft
           (if isWorkSession prev
            then workDuration (settings prev) * 60
            else breakDuration (settings prev) * 60)
           (with_flags false false prev))).

(** The earlier revision's defaults and initialiser: no version tag, no
    progress; whatever is stored under the settings key is parsed. *)
Definition defaultSettings : TimerSettings :=
  {| workDuration := 25;
     breakDuration := 5;
     intervals := 4;
     notificationVolume := 50;
     notificationSound := "bell";
     beepCount := 3 |}.

Definition useTimer_init (ls : Storage) : completion TimerState :=
  let savedSettings := pomodoro_settings ls in
  match (if truthy_text savedSettings
         then match savedSettings with
              | Some t => JSON_parse t
              | None => Normal JSnull        (* excluded by [truthy_text] *)
              end
         else Normal (JSrecord defaultSettings)) with
  | Throw e => Throw e
  | Normal parsedSettings =>
      (* settings.workDuration *)
      match property_of parsedSettings with
      | Throw e => Throw e
      | Normal settings =>
          Normal {| timeLeft := workDuration settings * 60;
                    isRunning := false;
                    isPaused := false;
                    currentInterval := 1;
                    isWorkSession := true;
                    settings := settings |}
      end
  end.

Definition skipSession : M unit :=
  setState (fun prev =>
    let isLastWorkSession :=
      isWorkSession prev
      && (currentInterval prev =? intervals (settings prev)) in
    if isLastWorkSession then
      (* All sessions completed *)
      releaseWakeLock ;;
      showNotification "Pomodoro Complete!"
                       "All work sessions completed. Great job!" ;;
      ret {| timeLeft := workDuration (settings prev) * 60;
               isRunning := false;
               isPaused := false;
               currentInterval := 1;
               isWorkSession := true;
               settings := settings prev |}
    else
      let nextIsWork := negb (isWorkSession prev) in
      let nextInterval :=
        if nextIsWork then currentInterval prev + 1 else currentInterval prev in
      let nextDuration :=
        if nextIsWork then workDuration (settings prev)
        else breakDuration (settings prev) in
      ret (with_timeLeft (nextDuration * 60)
             (with_currentInterval nextInterval
                (with_isWorkSession nextIsWork prev)))).

Definition updateTimer (clk : Clock) : M unit :=
  target <- reads expectedEndTimeRef ;;
  if unset target then ret tt else
  let now := Date_now clk in
  let timeLeft' :=
    Z.max 0 (Math_ceil_div (match target with Some e => e | None => 0 end - now)
                           1000) in
  modify (put_lastUpdateRef (Some now)) ;;
  setState (fun prev =>
    if timeLeft' <=? 0 then
      let isLastWorkSession :=
        isWorkSession prev
        && (currentInterval prev =? intervals (settings prev)) in
      if isLastWorkSession then
        (* All sessions completed *)
        releaseWakeLock ;;
        modify (put_expectedEndTimeRef None) ;;
        showNotification "Pomodoro Complete!"
                         "All work sessions completed. Great job!" ;;
        ret {| timeLeft := workDuration (settings prev) * 60;
               isRunning := false;
               isPaused := false;
               currentInterval := 1;
               isWorkSession := true;
               settings := settings prev |}
      else
        (* Move to next session *)
        let nextIsWork := negb (isWorkSession prev) in
        let nextInterval :=
          if nextIsWork then currentInterval prev + 1
          else currentInterval prev in
        let nextDuration :=
          if nextIsWork then workDuration (settings prev)
          else breakDuration (settings prev) in
        (* Update expected end time for next session *)
        modify (put_expectedEndTimeRef (Some (now + nextDuration * 60 * 1000))) ;;
        showNotification
          (if nextIsWork then "Work Time!" else "Break Time!")
          (if nextIsWork
           then "Starting work session " ++ show nextInterval
                ++ " of " ++ show (intervals (settings prev))
           else "Take a " ++ show (breakDuration (settings prev))
                ++ " minute break") ;;
        ret (with_timeLeft (nextDuration * 60)
               (with_currentInterval nextInterval
                  (with_isWorkSession nextIsWork prev)))
    else ret (with_timeLeft timeLeft' prev)).

Definition tick (clk : Clock) : M unit :=
  running <- reads (fun w => isRunning (state w)) ;;
  if running then updateTimer clk else ret tt.

Definition expire (w : World) : World :=
  match expectedEndTimeRef w with
  | Some e => exec (tick (mkClock e "")) w
  | None => w
  end.

Fixpoint expire_times (n : nat) (w : World) : World :=
  match n with
  | O => w
  | S n' => expire_times n' (expire w)
  end.

End Legacy.

(** The state both [skipSession] and [updateTimer] return when the cycle
    is over. *)
Definition completed (prev : TimerState) : TimerState :=
  {| timeLeft := workDuration (settings prev) * 60;
     isRunning := false;
     isPaused := false;
     currentInterval := 1;
     isWorkSession := true;
     settings := settings prev |}.

Definition skipSession (clk : Clock) : M unit :=
  setState (fun prev =>
    let totalSessions := intervals (settings prev) * 2 in
    let isLastSession := currentInterval prev =? totalSessions in
    if isLastSession then
      (* All sessions completed *)
      releaseWakeLock ;;
      showNotification "Pomodoro Complete!"
                       "All work sessions completed. Great job!" ;;
      saveProgress clk totalSessions ;;
      ret (completed prev)
    else
      let nextIsWork := negb (isWorkSession prev) in
      let nextInterval :=
        if nextIsWork then currentInterval prev + 1 else currentInterval prev in
      let nextDuration :=
        if nextIsWork then workDuration (settings prev)
        else breakDuration (settings prev) in
      (* Save progress when skipping to next work session *)
      (if nextIsWork then saveProgress clk nextInterval else ret tt) ;;
      ret (with_timeLeft (nextDuration * 60)
             (with_currentInterval nextInterval
                (with_isWorkSession nextIsWork prev)))).

(** The body of the notification sent when a session starts. *)
Definition boundary_body (nextIsWork : bool) (nextInterval : Z)
  (s : TimerSettings) : string :=
  if nextIsWork
  then "Starting work session " ++ show (Math_ceil_div nextInterval 2)
       ++ " of " ++ show (intervals s)
  else "Take a " ++ show (breakDuration s) ++ " minute break".

(** [updateTimer], the periodic callback of the main effect. *)
Definition updateTimer (clk : Clock) : M unit :=
  target <- reads expectedEndTimeRef ;;
  if unset target then ret tt else
  let now := Date_now clk in
  let timeLeft' :=
    Z.max 0 (Math_ceil_div (match target with Some e => e | None => 0 end - now)
                           1000) in
  modify (put_lastUpdateRef (Some now)) ;;
  setState (fun prev =>
    if timeLeft' <=? 0 then
      let totalSessions := intervals (settings prev) * 2 in
      let isLastSession := currentInterval prev =? totalSessions in
      if isLastSession then
        (* All sessions completed *)
        releaseWakeLock ;;
        modify (put_expectedEndTimeRef None) ;;
        showNotification "Pomodoro Complete!"
                         "All work sessions completed. Great job!" ;;
        (* Save progress as completed for the day *)
        saveProgress clk totalSessions ;;
        ret (completed prev)
      else
        (* Move to next session *)
        let nextIsWork := negb (isWorkSession prev) in
        let nextInterval :=
          if nextIsWork then currentInterval prev + 1
          else currentInterval prev in
        let nextDuration :=
          if nextIsWork then workDuration (settings prev)
          else breakDuration (settings prev) in
        (* Update expected end time for next session *)
        modify (put_expectedEndTimeRef (Some (now + nextDuration * 60 * 1000))) ;;
        (* Save progress when moving to next work session *)
        (if nextIsWork then saveProgress clk nextInterval else ret tt) ;;
        showNotification
          (if nextIsWork then "Work Time!" else "Break Time!")
          (boundary_body nextIsWork nextInterval (settings prev)) ;;
        ret (with_timeLeft (nextDuration * 60)
               (with_currentInterval nextInterval
                  (with_isWorkSession nextIsWork prev)))
    else ret (with_timeLeft timeLeft' prev)).

(** The main effect arms [updateTimer] only while [state.isRunning]; its
    clean-up clears the pending timeout as soon as the flag drops.  [tick]
    is one firing of that schedule. *)
Definition tick (clk : Clock) : M unit :=
  running <- reads (fun w => isRunning (state w)) ;;
  if running then updateTimer clk else ret tt.

(** [handleVisibilityChange], the [visibilitychange] listener. *)
Definition handleVisibilityChange (clk : Clock) : M unit :=
  running <- reads (fun w => isRunning (state w)) ;;
  target <- reads expectedEndTimeRef ;;
  if negb running || unset target then ret tt else
  let now := Date_now clk in
  let timeLeft' :=
    Z.max 0 (Math_ceil_div (match target with Some e => e | None => 0 end - now)
                           1000) in
  setState (fun prev =>
    if timeLeft' <=? 0
    then (* Timer should have ended while hidden *)
         ret (with_timeLeft 0 prev)
    else ret (with_timeLeft timeLeft' prev)) ;;
  modify (put_lastUpdateRef (Some now)).

(** ** Runs of the engine *)

(** What can happen to a mounted hook: a button of the display, a change in
    the settings form, a firing of the schedule, a visibility change. *)
Inductive Action : Type :=
| Start (clk : Clock)
| Pause
| Reset (clk : Clock)
| Skip (clk : Clock)
| Tick (clk : Clock)
| UpdateSettings (newSettings : PartialSettings)
| VisibilityChange (clk : Clock).

Definition perform (a : Action) : M unit :=
  match a with
  | Start clk => startTimer clk
  | Pause => pauseTimer
  | Reset clk => resetTimer clk
  | Skip clk => skipSession clk
  | Tick clk => tick clk
  | UpdateSettings p => updateSettings p
  | VisibilityChange clk => handleVisibilityChange clk
  end.

Fixpoint run (actions : list Action) (w : World) : World :=
  match actions with
  | [] => w
  | a :: rest => run rest (exec (perform a) w)
  end.

(** The controls of the display and the schedule, which drive a session;
    the settings form and visibility changes are left out. *)
Definition is_control (a : Action) : bool :=
  match a with
  | Start _ | Pause | Reset _ | Skip _ | Tick _ => true
  | UpdateSettings _ | VisibilityChange _ => false
  end.

Definition reachable (w0 w : World) : Prop :=
  exists actions, forallb is_control actions = true /\ run actions w0 = w.

(** One natural expiry: the schedule fires exactly when the target end
    time is reached. *)
Definition expire (today : string) (w : World) : World :=
  match expectedEndTimeRef w with
  | Some e => exec (tick (mkClock e today)) w
  | None => w
  end.

Fixpoint expire_times (n : nat) (today : string) (w : World) : World :=
  match n with
  | O => w
  | S n' => expire_times n' today (expire today w)
  end.

(** How many notifications, and how many progress writes, a trace holds. *)
Definition is_notification (e : Effect) : bool :=
  match e with Notified _ _ => true | _ => false end.

Definition is_progress_write (e : Effect) : bool :=
  match e with ProgressSaved _ => true | _ => false end.

Definition notifications (w : World) : nat :=
  List.length (filter is_notification (trace w)).

Definition progress_writes (w : World) : nat :=
  List.length (filter is_progress_write (trace w)).

(** A state as the display shows it: index, kind of session, status. *)
Definition session_view (w : World) : Z * bool * Status :=
  (currentInterval (state w), isWorkSession (state w), status (state w)).

(** ** Sample worlds *)

(** The settings of the worked example: 25 minutes of work, 5 of break,
    4 intervals. *)
Definition classic : TimerSettings :=
  {| workDuration := 25;
     breakDuration := 5;
     intervals := 4;
     notificationVolume := 50;
     notificationSound := "bell";
     beepCount := 3 |}.

Definition monday : string := "Mon Nov 02 2026".

(** A store holding the classic settings under the current version and no
    progress. *)
Definition classic_store : Storage :=
  {| pomodoro_settings := Some (Encoded classic);
     pomodoro_progress := None;
     pomodoro_settings_version := Some CURRENT_VERSION |}.

(** Mounting over a store; [None] when the initialiser throws. *)
Definition mounted (clk : Clock) (ls : Storage) : option World :=
  match useTimer_init clk ls with
  | (Normal s, ls') => Some (mount s ls' true)
  | (Throw _, _) => None
  end.

Definition classic_world : World :=
  mount {| timeLeft := 1500;
           isRunning := false;
           isPaused := false;
           currentInterval := 1;
           isWorkSession := true;
           settings := classic |}
        classic_store true.

(** The sample world once started, at 1000 ms. *)
Definition classic_started : World :=
  exec (startTimer (mkClock 1000 monday)) classic_world.

(** The sample world running its last index. *)
Definition last_session_world : World :=
  put_state (with_currentInterval 8 (state classic_started)) classic_started.

(** A mounted world whose index lies beyond the cycle. *)
Definition overshot_world : World :=
  put_state (with_currentInterval 9 (state classic_world)) classic_world.

(** Stores as a reload may find them. *)

(** Rejected text under the settings key, current version tag. *)
Definition garbled_settings_store : Storage :=
  {| pomodoro_settings := Some Garbled;
     pomodoro_progress := None;
     pomodoro_settings_version := Some CURRENT_VERSION |}.

(** Rejected text under the progress key. *)
Definition garbled_progress_store : Storage :=
  {| pomodoro_settings := Some (Encoded classic);
     pomodoro_progress := Some Garbled;
     pomodoro_settings_version := Some CURRENT_VERSION |}.

(** Rejected text under the settings key, but an old version tag. *)
Definition outdated_store : Storage :=
  {| pomodoro_settings := Some Garbled;
     pomodoro_progress := None;
     pomodoro_settings_version := Some "1.0" |}.

(** Today's progress as the end of a cycle leaves it: [2 * intervals]. *)
Definition evening_store : Storage :=
  {| pomodoro_settings := Some (Encoded classic);
     pomodoro_progress := Some (Encoded (mkProgress 8 monday));
     pomodoro_settings_version := Some CURRENT_VERSION |}.

(** What mounting over the evening store gives. *)
Definition evening_world : World :=
  mount {| timeLeft := 1500;
           isRunning := false;
           isPaused := false;
           currentInterval := 8;
           isWorkSession := true;
           settings := classic |}
        evening_store true.

(** The text [null] under the settings key, current version tag. *)
Definition null_settings_store : Storage :=
  {| pomodoro_settings := Some Null;
     pomodoro_progress := None;
     pomodoro_settings_version := Some CURRENT_VERSION |}.

(** The text [null] under the progress key. *)
Definition null_progress_store : Storage :=
  {| pomodoro_settings := Some (Encoded classic);
     pomodoro_progress := Some Null;
     pomodoro_settings_version := Some CURRENT_VERSION |}.

(** The texts the initialiser hands to [JSON.parse] and that it rejects. *)
Definition settings_rejected (ls : Storage) : Prop :=
  pomodoro_settings ls = Some Garbled
  /\ pomodoro_settings_version ls = Some CURRENT_VERSION.

Definition progress_rejected (ls : Storage) : Prop :=
  pomodoro_progress ls = Some Garbled.

(** The texts it parses to [null]. *)
Definition settings_null (ls : Storage) : Prop :=
  pomodoro_settings ls = Some Null
  /\ pomodoro_settings_version ls = Some CURRENT_VERSION.

Definition progress_null (ls : Storage) : Prop :=
  pomodoro_progress ls = Some Null.

(** The texts it parses, or tries to, and from which no record is read. *)
Definition settings_unreadable (ls : Storage) : Prop :=
  settings_rejected ls \/ settings_null ls.

Definition progress_unreadable (ls : Storage) : Prop :=
  progress_rejected ls \/ progress_null ls.

(** The stores whose settings the initialiser replaces by the defaults. *)
Definition settings_discarded (ls : Storage) : Prop :=
  pomodoro_settings ls = None
  \/ pomodoro_settings ls = Some Blank
  \/ pomodoro_settings_version ls <> Some CURRENT_VERSION.

(** The stores whose progress the initialiser does not take up. *)
Definition progress_discarded (clk : Clock) (ls : Storage) : Prop :=
  pomodoro_progress ls = None
  \/ pomodoro_progress ls = Some Blank
  \/ exists p, pomodoro_progress ls = Some (Encoded p)
               /\ lastDate p <> toDateString clk.

(** ** The display *)

(** [s.padStart(target, '0')]. *)
Fixpoint zeros (n : nat) : string :=
  match n with
  | O => ""
  | S k => "0" ++ zeros k
  end.

Definition padStart0 (target : nat) (s : string) : string :=
  zeros (target - String.length s) ++ s.

(** [formatTime] of the timer display; [%] is the remainder that takes the
    sign of the dividend. *)
Definition formatTime (seconds : Z) : string :=
  let mins := seconds / 60 in
  let secs := Z.rem seconds 60 in
  padStart0 2 (show mins) ++ ":" ++ padStart0 2 (show secs).

(** Reading a two-digit display back; only used to tell displays apart. *)
Definition digit_value (c : Ascii.ascii) : Z :=
  Z.of_nat (Ascii.nat_of_ascii c) - 48.

Definition read_display (s : string) : option Z :=
  match s with
  | String a (String b (String _ (String c (String d EmptyString)))) =>
      Some ((digit_value a * 10 + digit_value b) * 60
            + digit_value c * 10 + digit_value d)
  | _ => None
  end.

(** ** Counting over a run *)

Definition is_release (e : Effect) : bool :=
  match e with WakeLockReleased => true | _ => false end.

Definition is_request (e : Effect) : bool :=
  match e with WakeLockRequested => true | _ => false end.

Definition releases (w : World) : nat :=
  List.length (filter is_release (trace w)).

Definition requests (w : World) : nat :=
  List.length (filter is_request (trace w)).

(** Everything but a change in the settings form. *)
Definition keeps_settings (a : Action) : bool :=
  match a with
  | UpdateSettings _ => false
  | _ => true
  end.

(** The actions that move a session on without restarting the day. *)
Definition is_forward (a : Action) : bool :=
  match a with
  | Start _ | Pause | Skip _ | Tick _ | VisibilityChange _ => true
  | Reset _ | UpdateSettings _ => false
  end.

(** A store taken from a running page: what a later mount reads. *)
Definition reload (clk : Clock) (w : World) : completion TimerState :=
  fst (useTimer_init clk (localStorage w)).

(** * Properties *)

(** ** Tactics and arithmetic *)

Ltac unfold_timer :=
  unfold exec, perform, tick, updateTimer, skipSession, resetTimer,
    pauseTimer, startTimer, updateSettings, handleVisibilityChange,
    setState, saveProgress, showNotification, releaseWakeLock,
    requestWakeLock, bind, ret, modify, reads in *.

Lemma Math_ceil_div_nonpos (a b : Z) :
  0 < b -> a <= 0 -> Math_ceil_div a b <= 0.
Proof.
  intros Hb Ha. unfold Math_ceil_div.
  assert (0 <= (- a) / b) by (apply Z.div_pos; lia).
  lia.
Qed.

Lemma Math_ceil_div_exact (k b : Z) :
  0 < b -> Math_ceil_div (k * b) b = k.
Proof.
  intros Hb. unfold Math_ceil_div.
  replace (- (k * b)) with ((- k) * b) by ring.
  rewrite Z.div_mul by lia. lia.
Qed.

(** Once the target is reached the recomputed remaining time is zero. *)
Lemma remaining_at_target (e now : Z) :
  e <= now -> Z.max 0 (Math_ceil_div (e - now) 1000) = 0.
Proof.
  intros H.
  pose proof (Math_ceil_div_nonpos (a := e - now) (b := 1000)).
  lia.
Qed.

(** Right after a boundary the remaining time is the whole next session. *)
Lemma remaining_at_session_start (now minutes : Z) :
  0 < minutes ->
  Z.max 0 (Math_ceil_div (now + minutes * 60 * 1000 - now) 1000)
  = minutes * 60.
Proof.
  intros H.
  replace (now + minutes * 60 * 1000 - now) with ((minutes * 60) * 1000)
    by ring.
  rewrite Math_ceil_div_exact by lia. lia.
Qed.

(** The sample world is what mounting over the sample store gives. *)
Lemma classic_world_mounted (clk : Clock) :
  mounted clk classic_store = Some classic_world.
Proof. reflexivity. Qed.

(** ** The length of a cycle *)

(** When the schedule fires at or after the target on index
    [2 * intervals], the cycle is closed: the state is reset, the target
    is dropped, the index is persisted and the completion notification is
    sent. *)
Lemma tick_on_last_index_completes (clk : Clock) (w : World) (e : Z) :
  isRunning (state w) = true ->
  expectedEndTimeRef w = Some e -> e <> 0 -> e <= Date_now clk ->
  currentInterval (state w) = intervals (settings (state w)) * 2 ->
  let w' := exec (tick clk) w in
  state w' = completed (state w)
  /\ expectedEndTimeRef w' = None
  /\ pomodoro_progress (localStorage w') =
       Some (Encoded (mkProgress (intervals (settings (state w)) * 2)
                                 (toDateString clk)))
  /\ notifications w' = S (notifications w)
  /\ hd_error (filter is_notification (trace w')) =
       Some (Notified "Pomodoro Complete!"
                      "All work sessions completed. Great job!").
Proof.
  destruct w as [s tgt st lu held sup ls tr]; simpl.
  intros Hrun Htgt He Hnow Hlast. subst tgt.
  unfold_timer; unfold notifications; simpl.
  rewrite Hrun; simpl.
  destruct (Z.eqb_spec e 0) as [|_]; [contradiction|]; simpl.
  rewrite (remaining_at_target Hnow); simpl.
  rewrite Hlast, Z.eqb_refl.
  destruct held; simpl; repeat split; reflexivity.
Qed.

(** C1: with 25/5/4 a full cycle should be eight sessions, the eighth
    being a break whose expiry closes the cycle.  Evaluated on the code:
    started from the first session and left to expire, the engine is on
    index 5, a work session, after eight expiries; index 8 is reached as a
    work session, the fifteenth of the run, and only its expiry closes the
    cycle.  The index moves on entering a work session only, while the
    cycle is closed on index [2 * intervals]. *)
Theorem classic_cycle_runs_fifteen_sessions :
  let started := exec (startTimer (mkClock 1000 monday)) classic_world in
  map (fun n => session_view (expire_times n monday started)) (seq 0 16)
  = [ (1, true, Running); (1, false, Running);
      (2, true, Running); (2, false, Running);
      (3, true, Running); (3, false, Running);
      (4, true, Running); (4, false, Running);
      (5, true, Running); (5, false, Running);
      (6, true, Running); (6, false, Running);
      (7, true, Running); (7, false, Running);
      (8, true, Running);
      (1, true, Idle) ]
  /\ state (expire_times 8 monday started)
     = {| timeLeft := 1500; isRunning := true; isPaused := false;
          currentInterval := 5; isWorkSession := true;
          settings := classic |}
  /\ notifications (expire_times 8 monday started) = 8%nat
  /\ state (expire_times 15 monday started)
     = {| timeLeft := 1500; isRunning := false; isPaused := false;
          currentInterval := 1; isWorkSession := true;
          settings := classic |}.
Proof. vm_compute. repeat split; reflexivity. Qed.

(** C2: the work flag should be the parity of the index in every state
    reached through start, pause, reset, skip and tick.  Evaluated on the
    code: one skip from the first session, and likewise one natural expiry,
    lead to index 1 on a break. *)
Theorem parity_invariant_broken :
  let skipped := run [Skip (mkClock 1000 monday)] classic_world in
  let expired :=
    run [Start (mkClock 1000 monday); Tick (mkClock 1501000 monday)]
        classic_world in
  reachable classic_world skipped
  /\ reachable classic_world expired
  /\ session_view skipped = (1, false, Idle)
  /\ session_view expired = (1, false, Running)
  /\ isWorkSession (state skipped) <> Z.odd (currentInterval (state skipped))
  /\ isWorkSession (state expired) <> Z.odd (currentInterval (state expired)).
Proof.
  cbv zeta. repeat split.
  - exists [Skip (mkClock 1000 monday)]. split; reflexivity.
  - exists [Start (mkClock 1000 monday); Tick (mkClock 1501000 monday)].
    split; reflexivity.
  - vm_compute. discriminate.
  - vm_compute. discriminate.
Qed.

(** ** Reset *)

(** C3, as stated, fails: reset during a break leaves the engine on a
    break, with the break's duration on the clock. *)
Lemma reset_during_break_stays_on_break :
  ~ (forall (clk : Clock) (w : World),
       let w' := exec (resetTimer clk) w in
       currentInterval (state w') = 1
       /\ isWorkSession (state w') = true
       /\ status (state w') = Idle
       /\ timeLeft (state w') = workDuration (settings (state w')) * 60).
Proof.
  intros H.
  specialize (H (mkClock 2000 monday)
                (run [Skip (mkClock 1000 monday)] classic_world)).
  vm_compute in H.
  destruct H as (_ & H & _). discriminate H.
Qed.

(** C3, amended: from any state, reset yields index 1 and status Idle,
    persists progress index 1 for today and leaves the settings (in the
    state and in the store) unchanged; the kind of session is kept, and the
    remaining time is the full duration of that kind of session.  Called
    on a work session it therefore yields a work session of
    [workDuration * 60] seconds. *)
Theorem resetTimer_spec (clk : Clock) (w : World) :
  let w' := exec (resetTimer clk) w in
  currentInterval (state w') = 1
  /\ status (state w') = Idle
  /\ isWorkSession (state w') = isWorkSession (state w)
  /\ timeLeft (state w') =
       (if isWorkSession (state w)
        then workDuration (settings (state w))
        else breakDuration (settings (state w))) * 60
  /\ pomodoro_progress (localStorage w') =
       Some (Encoded (mkProgress 1 (toDateString clk)))
  /\ progress_writes w' = S (progress_writes w)
  /\ settings (state w') = settings (state w)
  /\ pomodoro_settings (localStorage w') = pomodoro_settings (localStorage w)
  /\ pomodoro_settings_version (localStorage w') =
       pomodoro_settings_version (localStorage w)
  /\ expectedEndTimeRef w' = None.
Proof.
  destruct w as [s tgt st lu held sup ls tr].
  unfold_timer; unfold progress_writes; simpl.
  destruct held; simpl; destruct (isWorkSession s);
    repeat split; reflexivity.
Qed.

(** The earlier revision's reset keeps both the index and the kind of
    session. *)
Lemma legacy_reset_restarts_session (w : World) :
  let w' := exec Legacy.resetTimer w in
  currentInterval (state w') = currentInterval (state w)
  /\ isWorkSession (state w') = isWorkSession (state w)
  /\ status (state w') = Idle
  /\ timeLeft (state w') =
       (if isWorkSession (state w)
        then workDuration (settings (state w))
        else breakDuration (settings (state w))) * 60.
Proof.
  destruct w as [s tgt st lu held sup ls tr].
  unfold Legacy.resetTimer.
  unfold_timer; simpl.
  destruct held; simpl; destruct (isWorkSession s);
    repeat split; reflexivity.
Qed.

(** ** Skip *)

(** On a session that is not the last one, skip and natural expiry compute
    the same next state and the same store. *)
Lemma skip_state_as_expiry (clk : Clock) (w : World) (e : Z) :
  isRunning (state w) = true ->
  expectedEndTimeRef w = Some e -> e <> 0 -> e <= Date_now clk ->
  currentInterval (state w) <> intervals (settings (state w)) * 2 ->
  state (exec (skipSession clk) w) = state (exec (tick clk) w)
  /\ localStorage (exec (skipSession clk) w) = localStorage (exec (tick clk) w).
Proof.
  destruct w as [s tgt st lu held sup ls tr]; simpl.
  intros Hrun Htgt He Hnow Hlast. subst tgt.
  unfold_timer; simpl.
  rewrite Hrun; simpl.
  destruct (Z.eqb_spec e 0) as [|_]; [contradiction|]; simpl.
  rewrite (remaining_at_target Hnow); simpl.
  destruct (Z.eqb_spec (currentInterval s) (intervals (settings s) * 2))
    as [|_]; [contradiction|].
  destruct (isWorkSession s); simpl; split; reflexivity.
Qed.

(** On a session that is not the last one, skip touches neither the target
    end time nor the notifications. *)
Lemma skip_leaves_target_and_notifications (clk : Clock) (w : World) :
  currentInterval (state w) <> intervals (settings (state w)) * 2 ->
  expectedEndTimeRef (exec (skipSession clk) w) = expectedEndTimeRef w
  /\ notifications (exec (skipSession clk) w) = notifications w.
Proof.
  destruct w as [s tgt st lu held sup ls tr]; simpl.
  intros Hlast.
  unfold_timer; unfold notifications; simpl.
  destruct (Z.eqb_spec (currentInterval s) (intervals (settings s) * 2))
    as [|_]; [contradiction|].
  destruct (isWorkSession s); simpl; split; reflexivity.
Qed.

(** C4: skip on a session that is not the last should move the target to
    the end of the new session and send the boundary notification once.
    Evaluated on the code, on a first work session started at 1000 ms and
    skipped at 5000 ms: the break is entered with 300 seconds on the
    clock, but the target stays at the end of the skipped work session
    (1501000 ms) and no notification is sent; the tick at 6000 ms then
    shows 1495 seconds, measured against the old target.  Natural expiry
    of the same session reaches the same state, moves the target to the
    end of the break (1801000 ms) and sends one notification. *)
Theorem skip_keeps_old_target :
  let started := exec (startTimer (mkClock 1000 monday)) classic_world in
  let skipped := exec (skipSession (mkClock 5000 monday)) started in
  let ticked := exec (tick (mkClock 6000 monday)) skipped in
  let expired := expire monday started in
  expectedEndTimeRef started = Some 1501000
  /\ session_view skipped = (1, false, Running)
  /\ timeLeft (state skipped) = 300
  /\ expectedEndTimeRef skipped = Some 1501000
  /\ notifications skipped = notifications started
  /\ session_view ticked = (1, false, Running)
  /\ timeLeft (state ticked) = 1495
  /\ state expired = state skipped
  /\ expectedEndTimeRef expired = Some 1801000
  /\ notifications expired = S (notifications started).
Proof. vm_compute. repeat split; reflexivity. Qed.

(** ** Ticking twice at one instant *)

(** C5: two ticks with the same clock reading at or after a session
    boundary leave the engine exactly where one tick leaves it, the
    collaborators' trace included: the boundary is crossed once, with one
    notification, and one progress write where the crossing has one (on
    closing the cycle and on entering a work session).  Durations are
    positive, as the settings form enforces. *)
Theorem tick_twice_same_instant (clk : Clock) (w : World) (e : Z) :
  0 < workDuration (settings (state w)) ->
  0 < breakDuration (settings (state w)) ->
  isRunning (state w) = true ->
  expectedEndTimeRef w = Some e -> e <> 0 -> e <= Date_now clk ->
  let once := exec (tick clk) w in
  let twice := exec (tick clk) once in
  twice = once
  /\ notifications twice = S (notifications w)
  /\ progress_writes twice =
       Nat.add (progress_writes w)
         (if (currentInterval (state w) =? intervals (settings (state w)) * 2)
             || negb (isWorkSession (state w))
          then 1%nat else 0%nat).
Proof.
  destruct w as [[tl run pau idx work cfg] tgt st lu held sup ls tr];
    simpl.
  intros Hwork Hbreak Hrun Htgt He Hnow. subst tgt run.
  unfold_timer; unfold notifications, progress_writes; simpl.
  destruct (Z.eqb_spec e 0) as [|_]; [contradiction|]; simpl.
  rewrite (remaining_at_target Hnow); simpl.
  destruct (idx =? intervals cfg * 2); simpl.
  - (* the cycle is closed: the engine is no longer running *)
    destruct held; simpl; rewrite ?Nat.add_1_r; repeat split; reflexivity.
  - (* a new session begins: the target is now its end *)
    destruct work; simpl.
    + destruct (Date_now clk + breakDuration cfg * 60 * 1000 =? 0);
        simpl; rewrite ?Nat.add_0_r; [repeat split; reflexivity|].
      rewrite (remaining_at_session_start (Date_now clk) Hbreak).
      destruct (Z.leb_spec (breakDuration cfg * 60) 0); [lia|].
      simpl. repeat split; reflexivity.
    + destruct (Date_now clk + workDuration cfg * 60 * 1000 =? 0);
        simpl; rewrite ?Nat.add_1_r; [repeat split; reflexivity|].
      rewrite (remaining_at_session_start (Date_now clk) Hwork).
      destruct (Z.leb_spec (workDuration cfg * 60) 0); [lia|].
      simpl. repeat split; reflexivity.
Qed.

Lemma tick_twice_same_instant_witness :
  let clk := mkClock 1502000 monday in
  let w := exec (startTimer (mkClock 1000 monday)) classic_world in
  expectedEndTimeRef w = Some 1501000
  /\ exec (tick clk) (exec (tick clk) w) = exec (tick clk) w
  /\ notifications (exec (tick clk) (exec (tick clk) w)) = 1%nat.
Proof.
  cbv zeta. split; [reflexivity|].
  pose proof (@tick_twice_same_instant (mkClock 1502000 monday)
                (exec (startTimer (mkClock 1000 monday)) classic_world)
                1501000) as H.
  cbv zeta in H.
  destruct H as (H1 & H2 & _);
    [ vm_compute; reflexivity | vm_compute; reflexivity | reflexivity
    | reflexivity | discriminate | vm_compute; discriminate | ].
  split; [exact H1 | exact H2].
Defined.

(** ** Changing the settings *)

(** C6: a settings change made while not running puts on the clock the
    duration the merged settings give the current kind of session, so
    setting the work duration to 30 minutes on a work session puts 1800
    seconds on it; made while running it leaves the remaining seconds as
    they are.  In both cases the merged settings are taken up and stored,
    and index, kind of session and flags are kept. *)
Theorem updateSettings_recomputes_remaining (newSettings : PartialSettings)
  (w : World) :
  let merged := spread_settings (settings (state w)) newSettings in
  let w' := exec (updateSettings newSettings) w in
  (isRunning (state w) = false ->
   timeLeft (state w') =
     (if isWorkSession (state w) then workDuration merged
      else breakDuration merged) * 60)
  /\ (p_workDuration newSettings = Some 30 ->
      isRunning (state w) = false -> isWorkSession (state w) = true ->
      timeLeft (state w') = 1800)
  /\ (isRunning (state w) = true ->
      timeLeft (state w') = timeLeft (state w))
  /\ settings (state w') = merged
  /\ pomodoro_settings (localStorage w') = Some (Encoded merged)
  /\ currentInterval (state w') = currentInterval (state w)
  /\ isWorkSession (state w') = isWorkSession (state w)
  /\ isRunning (state w') = isRunning (state w)
  /\ isPaused (state w') = isPaused (state w)
  /\ expectedEndTimeRef w' = expectedEndTimeRef w.
Proof.
  destruct w as [[tl run pau idx work cfg] tgt st lu held sup ls tr].
  destruct newSettings as [pw pb pn pv ps pc].
  unfold_timer; simpl.
  split; [intros Hrun; rewrite Hrun; reflexivity|].
  split; [intros Hpw Hrun Hwork; rewrite Hpw, Hrun, Hwork; reflexivity|].
  split; [intros Hrun; rewrite Hrun; reflexivity|].
  repeat split; reflexivity.
Qed.

Lemma updateSettings_recomputes_remaining_witness :
  let thirty := mkPartial (Some 30) None None None None None in
  let longer_break := mkPartial None (Some 10) None None None None in
  let on_break := exec (skipSession (mkClock 1000 monday)) classic_world in
  let started := exec (startTimer (mkClock 1000 monday)) classic_world in
  (isRunning (state classic_world) = false
   /\ isWorkSession (state classic_world) = true
   /\ timeLeft (state (exec (updateSettings thirty) classic_world)) = 1800)
  /\ (isRunning (state on_break) = false
      /\ isWorkSession (state on_break) = false
      /\ timeLeft (state (exec (updateSettings longer_break) on_break)) = 600)
  /\ (isRunning (state started) = true
      /\ timeLeft (state (exec (updateSettings thirty) started)) = 1500).
Proof.
  cbv zeta. split; [|split].
  - split; [reflexivity|]. split; [reflexivity|].
    apply (proj1 (proj2 (updateSettings_recomputes_remaining
                           (mkPartial (Some 30) None None None None None)
                           classic_world)));
      reflexivity.
  - split; [reflexivity|]. split; [reflexivity|].
    apply (proj1 (updateSettings_recomputes_remaining
                    (mkPartial None (Some 10) None None None None)
                    (exec (skipSession (mkClock 1000 monday))
                          classic_world))).
    reflexivity.
  - split; [reflexivity|].
    apply (proj1 (proj2 (proj2 (updateSettings_recomputes_remaining
                    (mkPartial (Some 30) None None None None None)
                    (exec (startTimer (mkClock 1000 monday))
                          classic_world))))).
    reflexivity.
Defined.

(** ** Coming back to the foreground *)

(** C7: when the page becomes visible while running with the target
    already passed, the handler puts 0 on the clock and does nothing
    else to the session: index, kind of session, flags, settings, target,
    store and trace are untouched.  The crossing is left to the schedule:
    the next tick crosses the boundary exactly as it would have without
    the handler, sending the one notification. *)
Theorem visibility_resync_clamps (clk : Clock) (w : World) (e : Z) :
  isRunning (state w) = true ->
  expectedEndTimeRef w = Some e -> e <> 0 -> e <= Date_now clk ->
  let w' := exec (handleVisibilityChange clk) w in
  state w' = with_timeLeft 0 (state w)
  /\ expectedEndTimeRef w' = expectedEndTimeRef w
  /\ localStorage w' = localStorage w
  /\ trace w' = trace w
  /\ (forall later : Clock, e <= Date_now later ->
        exec (tick later) w' = exec (tick later) w
        /\ notifications (exec (tick later) w') = S (notifications w')).
Proof.
  destruct w as [[tl run pau idx work cfg] tgt st lu held sup ls tr];
    simpl.
  intros Hrun Htgt He Hnow. subst tgt run.
  unfold_timer; unfold notifications; simpl.
  destruct (Z.eqb_spec e 0) as [|_]; [contradiction|]; simpl.
  rewrite (remaining_at_target Hnow); simpl.
  repeat (split; [reflexivity|]).
  intros later Hlater. split.
  all: destruct (Z.eqb_spec e 0) as [|_]; [contradiction|]; simpl.
  all: rewrite (remaining_at_target Hlater); simpl.
  all: destruct (idx =? intervals cfg * 2); simpl.
  all: destruct held, work; reflexivity.
Qed.

Lemma visibility_resync_clamps_witness :
  let back := mkClock 1900000 monday in
  let w := exec (startTimer (mkClock 1000 monday)) classic_world in
  expectedEndTimeRef w = Some 1501000
  /\ state (exec (handleVisibilityChange back) w) = with_timeLeft 0 (state w)
  /\ trace (exec (handleVisibilityChange back) w) = trace w.
Proof.
  cbv zeta. split; [reflexivity|].
  pose proof (@visibility_resync_clamps (mkClock 1900000 monday)
                (exec (startTimer (mkClock 1000 monday)) classic_world)
                1501000) as H.
  cbv zeta in H.
  destruct H as (H1 & _ & _ & H2 & _);
    [ reflexivity | reflexivity | discriminate | vm_compute; discriminate | ].
  split; [exact H1 | exact H2].
Defined.

(** ** Pause *)

(** C9, as stated, fails: pause on an engine that was never started turns
    the status from Idle to Paused. *)
Lemma pause_from_idle_shows_paused :
  status (state classic_world) = Idle
  /\ status (state (exec pauseTimer classic_world)) = Paused
  /\ status (state (exec pauseTimer classic_world))
     <> status (state classic_world).
Proof. vm_compute. repeat split; discriminate. Qed.

(** C9, amended: pause has no guard.  From any state it leaves the
    remaining seconds, the index, the kind of session and the settings
    unchanged and sets the status to Paused; so it changes nothing when
    the engine is already Paused, and turns Idle into Paused. *)
Theorem pauseTimer_spec (w : World) :
  let w' := exec pauseTimer w in
  timeLeft (state w') = timeLeft (state w)
  /\ currentInterval (state w') = currentInterval (state w)
  /\ isWorkSession (state w') = isWorkSession (state w)
  /\ settings (state w') = settings (state w)
  /\ status (state w') = Paused
  /\ (status (state w) = Paused -> state w' = state w).
Proof.
  destruct w as [[tl run pau idx work cfg] tgt st lu held sup ls tr].
  unfold_timer; unfold status; simpl.
  destruct held; simpl; repeat split; try reflexivity;
    destruct run, pau; simpl; intros H; try discriminate H; reflexivity.
Qed.

Lemma pauseTimer_spec_witness :
  let paused := exec pauseTimer
                  (exec (startTimer (mkClock 1000 monday)) classic_world) in
  status (state paused) = Paused
  /\ state (exec pauseTimer paused) = state paused.
Proof.
  cbv zeta. split; [reflexivity|].
  apply (pauseTimer_spec
           (exec pauseTimer
              (exec (startTimer (mkClock 1000 monday)) classic_world))).
  reflexivity.
Defined.

(** ** Loading *)

Lemma version_eqb_spec (v : option string) :
  match v with
  | Some x => String.eqb x CURRENT_VERSION
  | None => false
  end = true <-> v = Some CURRENT_VERSION.
Proof.
  destruct v as [x|]; split; intros H; try discriminate H.
  - apply String.eqb_eq in H. now subst.
  - injection H as ->. apply String.eqb_refl.
Qed.

(** Takes a store apart: which text is under each key, whether the
    version tag is the current one, whether stored progress is today's. *)
Ltac take_store_apart clk ls :=
  let sv := fresh "sv" in
  let pv := fresh "pv" in
  let vv := fresh "vv" in
  destruct ls as [sv pv vv];
  unfold useTimer_init, load_settings, load_progress,
    settings_unreadable, progress_unreadable, settings_rejected,
    progress_rejected, settings_null, progress_null, settings_discarded,
    progress_discarded in *;
  simpl in *;
  destruct vv as [vv|];
    [ destruct (String.eqb_spec vv CURRENT_VERSION) as [?|?]; [subst vv|] | ];
  destruct sv as [[| | |?]|];
  destruct pv as [[| | |?p]|];
  simpl in *;
  try match goal with
      | |- context [String.eqb (lastDate ?p) (toDateString clk)] =>
          destruct (String.eqb_spec (lastDate p) (toDateString clk))
      | H : context [String.eqb (lastDate ?p) (toDateString clk)] |- _ =>
          destruct (String.eqb_spec (lastDate p) (toDateString clk))
      end;
  simpl in *.

(** Opens the disjunctions, conjunctions and existentials at hand. *)
Ltac break_hyps :=
  repeat match goal with
         | H : _ \/ _ |- _ => destruct H
         | H : _ /\ _ |- _ => destruct H
         | H : exists _, _ |- _ => destruct H
         end.

(** The settings half throws on a rejected text, returns [null] on the
    text [null], falls back to the defaults on a discarded text, and
    otherwise returns the stored record. *)
Lemma load_settings_cases (ls : Storage) :
  (settings_rejected ls /\ fst (load_settings ls) = Throw SyntaxError)
  \/ (settings_null ls /\ load_settings ls = (Normal JSnull, ls))
  \/ (settings_discarded ls
      /\ load_settings ls =
           (Normal (JSrecord defaultSettings),
            set_version_item (Some CURRENT_VERSION)
              (set_settings_item (Some (Encoded defaultSettings)) ls)))
  \/ (exists s, pomodoro_settings ls = Some (Encoded s)
                /\ pomodoro_settings_version ls = Some CURRENT_VERSION
                /\ load_settings ls = (Normal (JSrecord s), ls)).
Proof.
  unfold load_settings, settings_rejected, settings_null, settings_discarded.
  destruct ls as [sv pv vv]; simpl.
  pose proof (version_eqb_spec vv) as Hv.
  destruct (match vv with
            | Some x => String.eqb x CURRENT_VERSION
            | None => false
            end).
  - assert (vv = Some CURRENT_VERSION) as -> by (apply Hv; reflexivity).
    destruct sv as [[| | |s]|]; simpl.
    + right; right; left. split; [right; left; reflexivity | reflexivity].
    + left. split; [split|]; reflexivity.
    + right; left. split; [split|]; reflexivity.
    + right; right; right. exists s. repeat split; reflexivity.
    + right; right; left. split; [left; reflexivity | reflexivity].
  - right; right; left. rewrite andb_false_r. split; [|reflexivity].
    right; right. intros H. apply Hv in H. discriminate H.
Qed.

(** The progress half throws on a rejected text and on the text [null],
    takes up today's progress and starts from 1 otherwise. *)
Lemma load_progress_cases (clk : Clock) (ls : Storage) :
  (progress_rejected ls /\ load_progress clk ls = Throw SyntaxError)
  \/ (progress_null ls /\ load_progress clk ls = Throw TypeError)
  \/ (progress_discarded clk ls
      /\ load_progress clk ls = Normal (mkProgress 1 (toDateString clk)))
  \/ (exists p, pomodoro_progress ls = Some (Encoded p)
                /\ lastDate p = toDateString clk
                /\ load_progress clk ls = Normal p).
Proof.
  unfold load_progress, progress_rejected, progress_null, progress_discarded.
  destruct ls as [sv pv vv]; simpl.
  destruct pv as [[| | |p]|]; simpl.
  - right; right; left. split; [right; left; reflexivity | reflexivity].
  - left. split; reflexivity.
  - right; left. split; reflexivity.
  - destruct (String.eqb_spec (lastDate p) (toDateString clk)) as [Heq|Hne].
    + right; right; right. exists p. repeat split; [exact Heq].
    + right; right; left. split; [|reflexivity].
      right; right. exists p. split; [reflexivity | exact Hne].
  - right; right; left. split; [left; reflexivity | reflexivity].
Qed.

(** The settings half never touches the progress key. *)
Lemma load_settings_keeps_progress (ls : Storage) :
  pomodoro_progress (snd (load_settings ls)) = pomodoro_progress ls.
Proof.
  unfold load_settings.
  destruct (truthy_text (pomodoro_settings ls) && _).
  - destruct (pomodoro_settings ls); reflexivity.
  - reflexivity.
Qed.

(** C8, as stated, fails: a rejected text under the settings key (with the
    current version tag), and likewise one under the progress key, makes
    the initialiser throw instead of falling back. *)
Lemma init_throws_on_garbled_text :
  fst (useTimer_init (mkClock 1000 monday) garbled_settings_store)
  = Throw SyntaxError
  /\ fst (useTimer_init (mkClock 1000 monday) garbled_progress_store)
     = Throw SyntaxError
  /\ mounted (mkClock 1000 monday) garbled_settings_store = None
  /\ mounted (mkClock 1000 monday) garbled_progress_store = None.
Proof. vm_compute. repeat split; reflexivity. Qed.

(** C8, amended: construction falls back to the built-in defaults when the
    settings key is missing or empty or the version tag is not the current
    one (whatever the stored text), and to progress index 1 when the
    progress key is missing, empty or dated another day.  Persisted JSON
    that is parsed is not recovered.  A non-empty text that [JSON.parse]
    rejects, under the settings key with the current version tag or under
    the progress key, makes construction throw [SyntaxError] to the
    caller, and [SyntaxError] is thrown in these cases only.  The
    well-formed text [null] in either place, when no [SyntaxError] comes
    first, makes it throw [TypeError] at the first property read, and
    [TypeError] is thrown in these cases only.  With neither kind of text
    in a parsed place, construction returns. *)
Theorem useTimer_init_recovery (clk : Clock) (ls : Storage) :
  ((exists ls', useTimer_init clk ls = (Throw SyntaxError, ls'))
   <-> settings_rejected ls \/ progress_rejected ls)
  /\ ((exists ls', useTimer_init clk ls = (Throw TypeError, ls'))
      <-> ~ settings_rejected ls /\ ~ progress_rejected ls
          /\ (settings_null ls \/ progress_null ls))
  /\ (~ settings_unreadable ls -> ~ progress_unreadable ls ->
      exists s ls', useTimer_init clk ls = (Normal s, ls'))
  /\ (settings_discarded ls -> progress_discarded clk ls ->
      exists ls',
        useTimer_init clk ls
        = (Normal {| timeLeft := 1200;
                     isRunning := false;
                     isPaused := false;
                     currentInterval := 1;
                     isWorkSession := true;
                     settings := defaultSettings |}, ls')
        /\ pomodoro_settings ls' = Some (Encoded defaultSettings)
        /\ pomodoro_settings_version ls' = Some CURRENT_VERSION)
  /\ (forall s ls', useTimer_init clk ls = (Normal s, ls') ->
        (settings_discarded ls ->
           settings s = defaultSettings
           /\ timeLeft s = 1200
           /\ pomodoro_settings ls' = Some (Encoded defaultSettings)
           /\ pomodoro_settings_version ls' = Some CURRENT_VERSION)
        /\ (progress_discarded clk ls -> currentInterval s = 1)).
Proof.
  take_store_apart clk ls.
  all: split; [|split; [|split; [|split]]].
  all: first
    [ solve [ split;
              [ intros [? H]; first [discriminate H | intuition congruence]
              | intros H; first [ solve [eexists; reflexivity]
                                | exfalso; break_hyps; intuition congruence ] ] ]
    | solve [ intros; break_hyps;
              first [ congruence
                    | exfalso; intuition congruence
                    | repeat eexists; repeat split; reflexivity ] ]
    | solve [ intros ? ? H; first [discriminate H | injection H as <- <-];
              simpl; split; intros; break_hyps;
              first [ congruence | repeat split; reflexivity ] ] ].
Qed.

(** The text [null] is parsed, and the property read after it throws. *)
Lemma init_throws_on_null_text :
  fst (useTimer_init (mkClock 1000 monday) null_settings_store)
  = Throw TypeError
  /\ fst (useTimer_init (mkClock 1000 monday) null_progress_store)
     = Throw TypeError.
Proof. vm_compute. split; reflexivity. Qed.

Lemma useTimer_init_recovery_witness :
  settings_discarded outdated_store
  /\ progress_discarded (mkClock 1000 monday) outdated_store
  /\ exists s ls',
       useTimer_init (mkClock 1000 monday) outdated_store = (Normal s, ls')
       /\ settings s = defaultSettings
       /\ currentInterval s = 1.
Proof.
  assert (Hd : settings_discarded outdated_store)
    by (right; right; intros H; discriminate H).
  assert (Hp : progress_discarded (mkClock 1000 monday) outdated_store)
    by (left; reflexivity).
  split; [exact Hd|]. split; [exact Hp|].
  destruct (useTimer_init_recovery (mkClock 1000 monday) outdated_store)
    as (_ & _ & _ & Hret & _).
  destruct (Hret Hd Hp) as (ls' & Heq & _).
  eexists. exists ls'. split; [exact Heq|]. split; reflexivity.
Defined.

(** C10: every freshly constructed state is an idle work session with the
    full work duration on the clock, whatever index is restored; and
    today's stored progress is restored as it is, so a reload on the same
    day starts a work session at the stored index, be it even or equal to
    [2 * intervals]. *)
Theorem fresh_state_is_full_work_session (clk : Clock) (ls : Storage) :
  (forall s ls', useTimer_init clk ls = (Normal s, ls') ->
     isWorkSession s = true
     /\ timeLeft s = workDuration (settings s) * 60
     /\ status s = Idle)
  /\ (forall p,
        pomodoro_progress ls = Some (Encoded p) ->
        lastDate p = toDateString clk ->
        ~ settings_unreadable ls ->
        exists s ls',
          useTimer_init clk ls = (Normal s, ls')
          /\ currentInterval s = progress_currentInterval p
          /\ isWorkSession s = true
          /\ timeLeft s = workDuration (settings s) * 60).
Proof.
  split.
  - intros s ls'. unfold useTimer_init.
    destruct (load_settings ls) as [[parsed|err] l]; [|discriminate].
    destruct (load_progress clk l) as [p|err]; [|discriminate].
    destruct parsed as [|cfg]; [discriminate|]. simpl.
    intros H. injection H as <- _. repeat split; reflexivity.
  - intros p Hp Hday Hnu. unfold useTimer_init.
    pose proof (load_settings_keeps_progress ls) as Hkeep.
    destruct (load_settings_cases ls)
      as [[Hu _] | [[Hu _] | [[_ Hl] | (s0 & _ & _ & Hl)]]];
      [ exfalso; apply Hnu; left; exact Hu
      | exfalso; apply Hnu; right; exact Hu | | ];
      rewrite Hl in *; simpl in Hkeep.
    + set (ls1 := set_version_item _ _) in *.
      assert (Hq : load_progress clk ls1 = Normal p).
      { unfold load_progress.
        change (pomodoro_progress ls1) with (pomodoro_progress ls).
        rewrite Hp; simpl. rewrite Hday, String.eqb_refl.
        reflexivity. }
      rewrite Hq. simpl. do 2 eexists. repeat split; reflexivity.
    + assert (Hq : load_progress clk ls = Normal p).
      { unfold load_progress. rewrite Hp; simpl.
        rewrite Hday, String.eqb_refl. reflexivity. }
      rewrite Hq. simpl. do 2 eexists. repeat split; reflexivity.
Qed.

Lemma fresh_state_is_full_work_session_witness :
  pomodoro_progress evening_store = Some (Encoded (mkProgress 8 monday))
  /\ exists s ls',
       useTimer_init (mkClock 1000 monday) evening_store = (Normal s, ls')
       /\ currentInterval s = 8
       /\ isWorkSession s = true
       /\ timeLeft s = workDuration (settings s) * 60.
Proof.
  split; [reflexivity|].
  apply (proj2 (fresh_state_is_full_work_session (mkClock 1000 monday)
                  evening_store)
               (mkProgress 8 monday)).
  - reflexivity.
  - reflexivity.
  - intros [[H _] | [H _]]; discriminate H.
Defined.

(** * Further properties of the hook and its display *)

(** ** The countdown against the wall clock *)

Lemma Math_ceil_div_remaining (total elapsed : Z) :
  Math_ceil_div (total * 1000 - elapsed) 1000 = total - elapsed / 1000.
Proof.
  unfold Math_ceil_div.
  replace (- (total * 1000 - elapsed)) with (elapsed + (- total) * 1000)
    by ring.
  rewrite Z.div_add by lia. lia.
Qed.

Lemma remaining_before_target (e now : Z) :
  now < e -> 1 <= Z.max 0 (Math_ceil_div (e - now) 1000).
Proof.
  intros H. unfold Math_ceil_div.
  assert ((- (e - now)) / 1000 < 0) by (apply Z.div_lt_upper_bound; lia).
  lia.
Qed.

(** X1: after [startTimer] at [c0] with [total] seconds on the clock, a
    tick [elapsed] milliseconds later, before the target, shows [total]
    less the whole seconds elapsed, and changes nothing else but the time
    of the last update; at [elapsed = 0] the remaining time is [total]
    itself. *)
Theorem countdown_follows_the_clock (w : World) (c0 c : Clock) :
  let total := timeLeft (state w) in
  let elapsed := Date_now c - Date_now c0 in
  0 < Date_now c0 ->
  0 <= elapsed < total * 1000 ->
  let started := exec (startTimer c0) w in
  let ticked := exec (tick c) started in
  expectedEndTimeRef started = Some (Date_now c0 + total * 1000)
  /\ timeLeft (state ticked) = total - elapsed / 1000
  /\ ticked = put_lastUpdateRef (Some (Date_now c))
                (put_state (with_timeLeft (total - elapsed / 1000)
                              (state started)) started).
Proof.
  destruct w as [[tl run pau idx work cfg] tgt st lu held sup ls tr].
  cbv zeta. simpl. intros Hnow Hel.
  unfold_timer; simpl.
  assert (Htgt : (Date_now c0 + tl * 1000 =? 0) = false) by lia.
  assert (Hrem : Z.max 0 (Math_ceil_div (Date_now c0 + tl * 1000 - Date_now c)
                                        1000)
                 = tl - (Date_now c - Date_now c0) / 1000).
  { replace (Date_now c0 + tl * 1000 - Date_now c)
      with (tl * 1000 - (Date_now c - Date_now c0)) by ring.
    rewrite Math_ceil_div_remaining.
    assert ((Date_now c - Date_now c0) / 1000 < tl)
      by (apply Z.div_lt_upper_bound; lia).
    lia. }
  assert (Hpos : 0 < tl - (Date_now c - Date_now c0) / 1000).
  { assert ((Date_now c - Date_now c0) / 1000 < tl)
      by (apply Z.div_lt_upper_bound; lia).
    lia. }
  destruct sup; simpl; rewrite Htgt; simpl; rewrite Hrem;
    destruct (Z.leb_spec (tl - (Date_now c - Date_now c0) / 1000) 0);
    try lia; simpl; repeat split; reflexivity.
Qed.

(** X2: a tick before the target only writes the remaining time (at least
    one second) and the time of the last update, so what any later tick
    does is the same whether or not that tick fired. *)
Theorem ticks_before_target_leave_no_mark (w : World) (c1 c2 : Clock) (e : Z) :
  isRunning (state w) = true ->
  expectedEndTimeRef w = Some e -> e <> 0 ->
  Date_now c1 < e ->
  let w1 := exec (tick c1) w in
  w1 = put_lastUpdateRef (Some (Date_now c1))
         (put_state (with_timeLeft
                       (Z.max 0 (Math_ceil_div (e - Date_now c1) 1000))
                       (state w)) w)
  /\ 1 <= timeLeft (state w1)
  /\ exec (tick c2) w1 = exec (tick c2) w.
Proof.
  destruct w as [[tl run pau idx work cfg] tgt st lu held sup ls tr].
  cbv zeta. simpl. intros Hrun Htgt He Hbefore. subst run tgt.
  pose proof (remaining_before_target Hbefore) as Hpos.
  unfold_timer; simpl.
  destruct (Z.eqb_spec e 0) as [|_]; [contradiction|]; simpl.
  destruct (Z.leb_spec (Z.max 0 (Math_ceil_div (e - Date_now c1) 1000)) 0);
    [lia|]; simpl.
  split; [reflexivity|]. split; [exact Hpos|].
  destruct (Z.eqb_spec e 0) as [|_]; [contradiction|]; simpl.
  destruct (Z.max 0 (Math_ceil_div (e - Date_now c2) 1000) <=? 0); simpl;
    [|reflexivity].
  destruct (idx =? intervals cfg * 2); simpl.
  - destruct held; reflexivity.
  - destruct work; reflexivity.
Qed.

(** ** Invariants of a run *)

(** Splits every test a callback makes on the world it runs in. *)
Ltac split_tests :=
  repeat (match goal with
          | |- context [if ?b then _ else _] => destruct b eqn:?
          | |- context [match ?o with Some _ => _ | None => _ end] =>
              destruct o eqn:?
          end; simpl in *).

Ltac by_cases_on a w :=
  destruct w as [[? ? ? ? ? ?] ? ? ? ? ? ? ?];
  destruct a; unfold_timer; simpl in *; split_tests.

(** A property kept by every action is kept by every run. *)
Lemma run_invariant (P : World -> Prop) (ok : Action -> bool) :
  (forall a w, ok a = true -> P w -> P (exec (perform a) w)) ->
  forall actions w, forallb ok actions = true -> P w -> P (run actions w).
Proof.
  intros Hstep actions.
  induction actions as [|a rest IH]; intros w Hok Hw; simpl in *.
  - exact Hw.
  - apply andb_prop in Hok. destruct Hok as [Ha Hrest].
    apply IH; [exact Hrest|]. apply Hstep; assumption.
Qed.

Lemma flags_step (a : Action) (w : World) :
  isRunning (state w) && isPaused (state w) = false ->
  isRunning (state (exec (perform a) w))
  && isPaused (state (exec (perform a) w)) = false.
Proof.
  by_cases_on a w; intros H; try reflexivity; try assumption.
Qed.

(** X4: whatever is done to a mounted hook, it never shows running and
    paused at once. *)
Theorem never_running_and_paused (clk : Clock) (ls : Storage) (w0 : World)
  (actions : list Action) :
  mounted clk ls = Some w0 ->
  isRunning (state (run actions w0)) && isPaused (state (run actions w0))
  = false.
Proof.
  intros Hm.
  apply (@run_invariant
           (fun w => isRunning (state w) && isPaused (state w) = false)
           (fun _ => true)).
  - intros a w _. apply flags_step.
  - clear. induction actions; simpl; auto.
  - unfold mounted, useTimer_init in Hm.
    destruct (load_settings ls) as [[[|cfg]|err] l]; [| |discriminate];
      (destruct (load_progress clk l); [|discriminate]);
      [discriminate|].
    injection Hm as <-. reflexivity.
Qed.

Lemma settings_step (a : Action) (w : World) :
  keeps_settings a = true ->
  settings (state (exec (perform a) w)) = settings (state w)
  /\ pomodoro_settings (localStorage (exec (perform a) w))
     = pomodoro_settings (localStorage w)
  /\ pomodoro_settings_version (localStorage (exec (perform a) w))
     = pomodoro_settings_version (localStorage w).
Proof.
  by_cases_on a w; intros H; try discriminate H; repeat split; reflexivity.
Qed.

(** X5: only the settings form changes the settings: every run without
    [updateSettings] leaves the settings of the state, and the settings
    text and version tag of the store, as they were. *)
Theorem controls_keep_settings (actions : list Action) (w : World) :
  forallb keeps_settings actions = true ->
  settings (state (run actions w)) = settings (state w)
  /\ pomodoro_settings (localStorage (run actions w))
     = pomodoro_settings (localStorage w)
  /\ pomodoro_settings_version (localStorage (run actions w))
     = pomodoro_settings_version (localStorage w).
Proof.
  intros Hok.
  apply (@run_invariant
           (fun w' => settings (state w') = settings (state w)
                      /\ pomodoro_settings (localStorage w')
                         = pomodoro_settings (localStorage w)
                      /\ pomodoro_settings_version (localStorage w')
                         = pomodoro_settings_version (localStorage w))
           keeps_settings); [| exact Hok | repeat split; reflexivity].
  intros a w' Ha (H1 & H2 & H3).
  destruct (settings_step a w' Ha) as (E1 & E2 & E3).
  rewrite E1, E2, E3. repeat split; assumption.
Qed.

Lemma index_range_step (a : Action) (w : World) :
  keeps_settings a = true ->
  1 <= intervals (settings (state w)) ->
  1 <= currentInterval (state w) <= intervals (settings (state w)) * 2 ->
  1 <= currentInterval (state (exec (perform a) w))
    <= intervals (settings (state w)) * 2.
Proof.
  by_cases_on a w; intros Ha Hn Hi; try discriminate Ha; lia.
Qed.

(** X6: with at least one interval, an index within [1, 2 * intervals]
    stays within it through every run that does not change the
    settings. *)
Theorem index_stays_in_cycle (actions : list Action) (w : World) :
  forallb keeps_settings actions = true ->
  1 <= intervals (settings (state w)) ->
  1 <= currentInterval (state w) <= intervals (settings (state w)) * 2 ->
  1 <= currentInterval (state (run actions w))
    <= intervals (settings (state w)) * 2.
Proof.
  intros Hok Hn Hi.
  apply (@run_invariant
           (fun w' => settings (state w') = settings (state w)
                      /\ 1 <= currentInterval (state w')
                         <= intervals (settings (state w)) * 2)
           keeps_settings); [| exact Hok | split; [reflexivity | exact Hi]].
  intros a w' Ha [Hs Hr].
  destruct (settings_step a w' Ha) as (E1 & _).
  split; [congruence|].
  rewrite <- Hs in *. apply index_range_step; assumption.
Qed.

Lemma overshoot_step (a : Action) (w : World) :
  is_forward a = true ->
  intervals (settings (state w)) * 2 < currentInterval (state w) ->
  settings (state (exec (perform a) w)) = settings (state w)
  /\ currentInterval (state w) <= currentInterval (state (exec (perform a) w))
  /\ (In (Notified "Pomodoro Complete!"
                   "All work sessions completed. Great job!")
         (trace (exec (perform a) w)) ->
      In (Notified "Pomodoro Complete!"
                   "All work sessions completed. Great job!") (trace w)).
Proof.
  by_cases_on a w; intros Ha Hi; try discriminate Ha;
    repeat split; try reflexivity; try lia; try tauto;
    simpl; intros H;
    repeat (destruct H as [H|H]; [discriminate H|]); exact H.
Qed.

(** X7: an index beyond [2 * intervals] (a restored index, or a cycle
    shortened in the settings form) is never brought back by start,
    pause, skip, tick or a visibility change: it can only grow, and no
    completion notification is sent; only reset returns to 1. *)
Theorem overshot_index_never_completes (actions : list Action) (w : World) :
  forallb is_forward actions = true ->
  intervals (settings (state w)) * 2 < currentInterval (state w) ->
  currentInterval (state w) <= currentInterval (state (run actions w))
  /\ (In (Notified "Pomodoro Complete!"
                   "All work sessions completed. Great job!")
         (trace (run actions w)) ->
      In (Notified "Pomodoro Complete!"
                   "All work sessions completed. Great job!") (trace w)).
Proof.
  intros Hok Hi.
  assert (H : settings (state (run actions w)) = settings (state w)
              /\ currentInterval (state w)
                 <= currentInterval (state (run actions w))
              /\ (In (Notified "Pomodoro Complete!"
                        "All work sessions completed. Great job!")
                     (trace (run actions w)) ->
                  In (Notified "Pomodoro Complete!"
                        "All work sessions completed. Great job!")
                     (trace w))).
  { apply (@run_invariant
             (fun w' => settings (state w') = settings (state w)
                        /\ currentInterval (state w)
                           <= currentInterval (state w')
                        /\ (In (Notified "Pomodoro Complete!"
                                  "All work sessions completed. Great job!")
                               (trace w') ->
                            In (Notified "Pomodoro Complete!"
                                  "All work sessions completed. Great job!")
                               (trace w)))
             is_forward); [| exact Hok | repeat split; [lia | tauto]].
    intros a w' Ha (Hs & Hle & Hin).
    destruct (@overshoot_step a w' Ha) as (E1 & E2 & E3);
      [rewrite Hs; lia|].
    repeat split; [congruence | lia | tauto]. }
  destruct H as (_ & H2 & H3). split; assumption.
Qed.

(** ** Skip on the last session *)

(** X3: skip on index [2 * intervals] closes the cycle as natural expiry
    does (state reset, index persisted, completion notification, wake
    lock let go) except that it leaves the target end time in place,
    which natural expiry clears. *)
Theorem skip_on_last_index_completes (clk : Clock) (w : World) :
  currentInterval (state w) = intervals (settings (state w)) * 2 ->
  let w' := exec (skipSession clk) w in
  state w' = completed (state w)
  /\ pomodoro_progress (localStorage w') =
       Some (Encoded (mkProgress (intervals (settings (state w)) * 2)
                                 (toDateString clk)))
  /\ notifications w' = S (notifications w)
  /\ hd_error (filter is_notification (trace w')) =
       Some (Notified "Pomodoro Complete!"
                      "All work sessions completed. Great job!")
  /\ wakeLockRef w' = false
  /\ expectedEndTimeRef w' = expectedEndTimeRef w
  /\ (forall e, isRunning (state w) = true ->
                expectedEndTimeRef w = Some e -> e <> 0 ->
                e <= Date_now clk ->
                exec (tick clk) w
                = put_lastUpdateRef (Some (Date_now clk))
                    (put_expectedEndTimeRef None w')).
Proof.
  destruct w as [[tl run pau idx work cfg] tgt st lu held sup ls tr].
  cbv zeta; simpl. intros Hlast. subst idx.
  unfold notifications. unfold_timer; simpl.
  rewrite Z.eqb_refl.
  repeat (split; [destruct held; reflexivity|]).
  intros e Hrun Htgt He Hnow. subst run tgt. simpl.
  destruct (Z.eqb_spec e 0) as [|_]; [contradiction|]; simpl.
  rewrite (remaining_at_target Hnow); simpl.
  rewrite Z.eqb_refl.
  destruct held; reflexivity.
Qed.

(** ** Reloading the page *)

(** What the store of a mounted hook always looks like: the settings in
    use are stored under the current version, and the progress text, if
    any, is readable. *)
Lemma store_step (a : Action) (w : World) :
  pomodoro_settings (localStorage w) = Some (Encoded (settings (state w)))
  /\ pomodoro_settings_version (localStorage w) = Some CURRENT_VERSION
  /\ pomodoro_progress (localStorage w) <> Some Garbled
  /\ pomodoro_progress (localStorage w) <> Some Null ->
  let w' := exec (perform a) w in
  pomodoro_settings (localStorage w') = Some (Encoded (settings (state w')))
  /\ pomodoro_settings_version (localStorage w') = Some CURRENT_VERSION
  /\ pomodoro_progress (localStorage w') <> Some Garbled
  /\ pomodoro_progress (localStorage w') <> Some Null.
Proof.
  cbv zeta.
  by_cases_on a w; intros (H1 & H2 & H3 & H4);
    repeat split; try assumption; try reflexivity; discriminate.
Qed.

Lemma store_after_mount (clk : Clock) (ls : Storage) (w0 : World) :
  mounted clk ls = Some w0 ->
  pomodoro_settings (localStorage w0) = Some (Encoded (settings (state w0)))
  /\ pomodoro_settings_version (localStorage w0) = Some CURRENT_VERSION
  /\ pomodoro_progress (localStorage w0) <> Some Garbled
  /\ pomodoro_progress (localStorage w0) <> Some Null.
Proof.
  unfold mounted. intros Hm.
  take_store_apart clk ls.
  all: first [ discriminate Hm | injection Hm as <- ].
  all: simpl; repeat split; first [reflexivity | discriminate].
Qed.

(** The store invariant, for every run of a mounted hook. *)
Lemma store_of_a_run (clk : Clock) (ls : Storage) (w0 : World)
  (actions : list Action) :
  mounted clk ls = Some w0 ->
  let w := run actions w0 in
  pomodoro_settings (localStorage w) = Some (Encoded (settings (state w)))
  /\ pomodoro_settings_version (localStorage w) = Some CURRENT_VERSION
  /\ pomodoro_progress (localStorage w) <> Some Garbled
  /\ pomodoro_progress (localStorage w) <> Some Null.
Proof.
  intros Hm. cbv zeta.
  apply (@run_invariant
           (fun w =>
              pomodoro_settings (localStorage w)
              = Some (Encoded (settings (state w)))
              /\ pomodoro_settings_version (localStorage w)
                 = Some CURRENT_VERSION
              /\ pomodoro_progress (localStorage w) <> Some Garbled
              /\ pomodoro_progress (localStorage w) <> Some Null)
           (fun _ => true)).
  - intros a w _ H. apply (store_step a w H).
  - clear. induction actions; simpl; auto.
  - apply (@store_after_mount clk ls w0 Hm).
Qed.

(** X8: at any point of any run of a mounted hook, a reload does not throw
    and starts from the settings then in use, idle, on a work session of
    full duration. *)
Theorem reload_restores_settings (clk : Clock) (ls : Storage) (w0 : World)
  (actions : list Action) (later : Clock) :
  mounted clk ls = Some w0 ->
  let w := run actions w0 in
  exists s,
    useTimer_init later (localStorage w) = (Normal s, localStorage w)
    /\ settings s = settings (state w)
    /\ timeLeft s = workDuration (settings (state w)) * 60
    /\ isWorkSession s = true
    /\ status s = Idle.
Proof.
  intros Hm. cbv zeta.
  pose proof (@store_of_a_run clk ls w0 actions Hm) as Hinv.
  cbv zeta in Hinv.
  destruct Hinv as (Hs & Hv & Hg & Hn).
  set (w := run actions w0) in *.
  unfold useTimer_init.
  assert (Hl : load_settings (localStorage w)
               = (Normal (JSrecord (settings (state w))), localStorage w)).
  { unfold load_settings. rewrite Hs, Hv. simpl. reflexivity. }
  rewrite Hl.
  destruct (load_progress_cases later (localStorage w))
    as [[Hq _] | [[Hq _] | [[_ Hq] | (p & _ & _ & Hq)]]];
    [contradiction | contradiction | |]; rewrite Hq; simpl;
    eexists; repeat split; reflexivity.
Qed.

(** X9: what [saveProgress] writes is restored by a reload on the same
    day and dropped by a reload on any other day. *)
Theorem saved_progress_lasts_the_day (clk : Clock) (ls : Storage)
  (w0 : World) (actions : list Action) (day later : Clock) (index : Z) :
  mounted clk ls = Some w0 ->
  let w := exec (saveProgress day index) (run actions w0) in
  exists s,
    reload later w = Normal s
    /\ currentInterval s =
         (if String.eqb (toDateString day) (toDateString later)
          then index else 1)
    /\ settings s = settings (state w).
Proof.
  intros Hm. cbv zeta.
  destruct (@store_of_a_run clk ls w0 actions Hm) as (Hs & Hv & _).
  destruct (run actions w0) as [s tgt st lu held sup l tr].
  simpl in Hs, Hv.
  unfold reload, useTimer_init. unfold_timer; simpl.
  unfold load_settings, load_progress; simpl.
  rewrite Hs, Hv; simpl.
  destruct (String.eqb (toDateString day) (toDateString later));
    eexists; repeat split; reflexivity.
Qed.

(** ** The length of a cycle, in general *)

(** One natural expiry on an index other than [2 * intervals]: the kind of
    session flips, the index moves on when a work session is entered, the
    target moves to the end of the new session and one notification is
    sent. *)
Lemma expire_advances (today : string) (w : World) (e : Z) :
  isRunning (state w) = true ->
  expectedEndTimeRef w = Some e -> 0 < e ->
  0 < workDuration (settings (state w)) ->
  0 < breakDuration (settings (state w)) ->
  currentInterval (state w) <> intervals (settings (state w)) * 2 ->
  let w' := expire today w in
  isRunning (state w') = true
  /\ (exists e', expectedEndTimeRef w' = Some e' /\ 0 < e')
  /\ settings (state w') = settings (state w)
  /\ isWorkSession (state w') = negb (isWorkSession (state w))
  /\ currentInterval (state w') =
       (if isWorkSession (state w) then currentInterval (state w)
        else currentInterval (state w) + 1)
  /\ notifications w' = S (notifications w).
Proof.
  destruct w as [[tl run pau idx work cfg] tgt st lu held sup ls tr].
  cbv zeta; simpl. intros Hrun Htgt He Hw Hb Hlast. subst run tgt.
  unfold expire, notifications; simpl. unfold_timer; simpl.
  destruct (Z.eqb_spec e 0) as [|_]; [lia|]; simpl.
  rewrite (remaining_at_target (Z.le_refl e)); simpl.
  destruct (Z.eqb_spec idx (intervals cfg * 2)) as [|_]; [contradiction|].
  destruct work; simpl.
  - split; [reflexivity|]. split; [eexists; split; [reflexivity | lia]|].
    repeat split; reflexivity.
  - split; [reflexivity|]. split; [eexists; split; [reflexivity | lia]|].
    repeat split; reflexivity.
Qed.

Lemma expire_times_advance (today : string) (k : nat) :
  forall (w : World) (e : Z),
  isRunning (state w) = true ->
  expectedEndTimeRef w = Some e -> 0 < e ->
  0 < workDuration (settings (state w)) ->
  0 < breakDuration (settings (state w)) ->
  2 * (currentInterval (state w) - 1)
  + (if isWorkSession (state w) then 0 else 1) + Z.of_nat k
  <= 4 * intervals (settings (state w)) - 2 ->
  let w' := expire_times k today w in
  isRunning (state w') = true
  /\ (exists e', expectedEndTimeRef w' = Some e' /\ 0 < e')
  /\ settings (state w') = settings (state w)
  /\ 2 * (currentInterval (state w') - 1)
     + (if isWorkSession (state w') then 0 else 1)
     = 2 * (currentInterval (state w) - 1)
       + (if isWorkSession (state w) then 0 else 1) + Z.of_nat k
  /\ notifications w' = (notifications w + k)%nat.
Proof.
  induction k as [|k IH]; intros w e Hrun Htgt He Hw Hb Hk; cbv zeta.
  - simpl. split; [exact Hrun|]. split; [exists e; split; assumption|].
    split; [reflexivity|]. split; [lia|]. lia.
  - simpl expire_times.
    assert (Hlast : currentInterval (state w)
                    <> intervals (settings (state w)) * 2)
      by (destruct (isWorkSession (state w)); lia).
    destruct (@expire_advances today w e Hrun Htgt He Hw Hb Hlast)
      as (R1 & (e' & T1 & T2) & S1 & K1 & I1 & N1).
    destruct (IH (expire today w) e' R1 T1 T2) as (R2 & T3 & S2 & P2 & N2).
    + rewrite S1; exact Hw.
    + rewrite S1; exact Hb.
    + rewrite S1, K1, I1. destruct (isWorkSession (state w)); cbn [negb]; lia.
    + split; [exact R2|]. split; [exact T3|].
      split; [congruence|]. split.
      * rewrite P2, K1, I1.
        destruct (isWorkSession (state w)); cbn [negb]; lia.
      * rewrite N2, N1. lia.
Qed.

(** X11: left to expire from the first work session, the engine stays
    running through [4 * intervals - 2] expiries, on index [1 + k / 2]
    and on a work session exactly when [k] is even, and closes the cycle
    at expiry [4 * intervals - 1], one notification per expiry. *)
Theorem cycle_closes_after_4n_minus_1_sessions (today : string) (w : World)
  (e : Z) :
  let n := intervals (settings (state w)) in
  isRunning (state w) = true ->
  expectedEndTimeRef w = Some e -> 0 < e ->
  0 < workDuration (settings (state w)) ->
  0 < breakDuration (settings (state w)) ->
  1 <= n ->
  currentInterval (state w) = 1 ->
  isWorkSession (state w) = true ->
  (forall k : nat, Z.of_nat k <= 4 * n - 2 ->
     let wk := expire_times k today w in
     status (state wk) = Running
     /\ currentInterval (state wk) = 1 + Z.of_nat k / 2
     /\ isWorkSession (state wk) = Z.even (Z.of_nat k)
     /\ notifications wk = (notifications w + k)%nat)
  /\ state (expire_times (Z.to_nat (4 * n - 1)) today w)
     = completed (state w)
  /\ notifications (expire_times (Z.to_nat (4 * n - 1)) today w)
     = (notifications w + Z.to_nat (4 * n - 1))%nat.
Proof.
  cbv zeta. intros Hrun Htgt He Hw Hb Hn Hidx Hwork.
  assert (Hk : forall k : nat,
             Z.of_nat k <= 4 * intervals (settings (state w)) - 2 ->
             isRunning (state (expire_times k today w)) = true
             /\ (exists e', expectedEndTimeRef (expire_times k today w)
                            = Some e' /\ 0 < e')
             /\ settings (state (expire_times k today w))
                = settings (state w)
             /\ currentInterval (state (expire_times k today w))
                = 1 + Z.of_nat k / 2
             /\ isWorkSession (state (expire_times k today w))
                = Z.even (Z.of_nat k)
             /\ notifications (expire_times k today w)
                = (notifications w + k)%nat).
  { intros k Hle.
    destruct (@expire_times_advance today k w e Hrun Htgt He Hw Hb)
      as (R & T & S & P & N).
    - rewrite Hidx, Hwork. lia.
    - rewrite Hidx, Hwork in P.
      split; [exact R|]. split; [exact T|]. split; [exact S|].
      split; [|split; [|exact N]].
      + pose proof (Z.div_mod (Z.of_nat k) 2 ltac:(lia)) as Hdm.
        pose proof (Z.mod_pos_bound (Z.of_nat k) 2 ltac:(lia)) as Hb2.
        destruct (isWorkSession (state (expire_times k today w))); lia.
      + rewrite (Zeven_mod (Z.of_nat k)).
        pose proof (Z.div_mod (Z.of_nat k) 2 ltac:(lia)) as Hdm.
        pose proof (Z.mod_pos_bound (Z.of_nat k) 2 ltac:(lia)) as Hb2.
        destruct (isWorkSession (state (expire_times k today w)));
          destruct (Z.eqb_spec (Z.of_nat k mod 2) 0); try reflexivity; lia. }
  split.
  - intros k Hle. destruct (Hk k Hle) as (R & _ & _ & I & K & N).
    unfold status. rewrite R. repeat split; assumption.
  - replace (Z.to_nat (4 * intervals (settings (state w)) - 1))
      with (Z.to_nat (4 * intervals (settings (state w)) - 2) + 1)%nat by lia.
    set (k := Z.to_nat (4 * intervals (settings (state w)) - 2)).
    assert (Hle : Z.of_nat k <= 4 * intervals (settings (state w)) - 2)
      by (unfold k; lia).
    destruct (Hk k Hle) as (R & (e' & T1 & T2) & S & I & K & N).
    assert (Hsplit : forall a b v,
               expire_times (a + b) today v
               = expire_times b today (expire_times a today v)).
    { induction a; intros b v; simpl; [reflexivity | apply IHa]. }
    rewrite Hsplit. simpl expire_times.
    set (wk := expire_times k today w) in *.
    assert (Hlast : currentInterval (state wk)
                    = intervals (settings (state wk)) * 2).
    { rewrite I, S. unfold k. rewrite Z2Nat.id by lia.
      replace (4 * intervals (settings (state w)) - 2)
        with ((2 * intervals (settings (state w)) - 1) * 2) by ring.
      rewrite Z.div_mul by lia. lia. }
    unfold expire. rewrite T1.
    destruct (@tick_on_last_index_completes (mkClock e' today) wk e' R T1)
      as (C1 & _ & _ & C2 & _); [lia | simpl; lia | exact Hlast |].
    split.
    + rewrite C1. unfold completed. rewrite S. reflexivity.
    + rewrite C2, N. lia.
Qed.

(** ** Changing the settings of a paused session *)

(** X12: a settings change that names no duration (the volume, say), made
    while paused in mid-session, puts the full duration of the session
    back on the clock. *)
Theorem settings_change_restarts_paused_session (w : World) (c : Clock)
  (e : Z) (newSettings : PartialSettings) :
  isRunning (state w) = true ->
  expectedEndTimeRef w = Some e -> e <> 0 -> Date_now c < e ->
  p_workDuration newSettings = None ->
  p_breakDuration newSettings = None ->
  let paused := exec pauseTimer (exec (tick c) w) in
  let changed := exec (updateSettings newSettings) paused in
  timeLeft (state paused) = Z.max 0 (Math_ceil_div (e - Date_now c) 1000)
  /\ status (state paused) = Paused
  /\ status (state changed) = Paused
  /\ timeLeft (state changed) =
       (if isWorkSession (state w) then workDuration (settings (state w))
        else breakDuration (settings (state w))) * 60
  /\ currentInterval (state changed) = currentInterval (state w)
  /\ isWorkSession (state changed) = isWorkSession (state w).
Proof.
  destruct w as [[tl run pau idx work cfg] tgt st lu held sup ls tr].
  destruct newSettings as [pw pb pn pv ps pc].
  cbv zeta; simpl. intros Hrun Htgt He Hbefore Hpw Hpb. subst run tgt pw pb.
  pose proof (remaining_before_target Hbefore) as Hpos.
  unfold status. unfold_timer; simpl.
  destruct (Z.eqb_spec e 0) as [|_]; [contradiction|]; simpl.
  destruct (Z.leb_spec (Z.max 0 (Math_ceil_div (e - Date_now c) 1000)) 0);
    [lia|]; simpl.
  destruct held; simpl; repeat split; reflexivity.
Qed.

(** ** The visibility handler before the target *)

(** X13: before the target, the visibility handler does exactly what a
    tick at the same instant does. *)
Theorem resync_before_target_is_a_tick (w : World) (c : Clock) (e : Z) :
  isRunning (state w) = true ->
  expectedEndTimeRef w = Some e -> e <> 0 -> Date_now c < e ->
  exec (handleVisibilityChange c) w = exec (tick c) w.
Proof.
  destruct w as [[tl run pau idx work cfg] tgt st lu held sup ls tr].
  simpl. intros Hrun Htgt He Hbefore. subst run tgt.
  pose proof (remaining_before_target Hbefore) as Hpos.
  unfold_timer; simpl.
  destruct (Z.eqb_spec e 0) as [|_]; [contradiction|]; simpl.
  destruct (Z.leb_spec (Z.max 0 (Math_ceil_div (e - Date_now c) 1000)) 0);
    [lia|]; reflexivity.
Qed.

(** ** Reloading after a cycle *)

(** X10: the index persisted when a cycle closes is [2 * intervals]; a
    reload on the same day starts a work session on that index, and the
    expiry of that one session closes the cycle again. *)
Theorem reload_after_completion_ends_at_first_expiry
  (clk : Clock) (ls : Storage) (w0 : World) (actions : list Action)
  (c later c0 : Clock) (e : Z) :
  mounted clk ls = Some w0 ->
  let w := run actions w0 in
  isRunning (state w) = true ->
  expectedEndTimeRef w = Some e -> e <> 0 -> e <= Date_now c ->
  currentInterval (state w) = intervals (settings (state w)) * 2 ->
  toDateString later = toDateString c ->
  0 < Date_now c0 -> 0 <= workDuration (settings (state w)) ->
  let done := exec (tick c) w in
  exists s,
    reload later done = Normal s
    /\ currentInterval s = intervals (settings (state w)) * 2
    /\ isWorkSession s = true
    /\ settings s = settings (state w)
    /\ let again :=
         expire (toDateString later)
           (exec (startTimer c0) (mount s (localStorage done) true)) in
       state again = completed s
       /\ notifications again = 1%nat.
Proof.
  intros Hm. cbv zeta. intros Hrun Htgt He Hnow Hlast Hday Hc0 Hwd.
  destruct (@store_of_a_run clk ls w0 actions Hm) as (Hs & Hv & _).
  destruct (run actions w0)
    as [[tl run pau idx work cfg] tgt st lu held sup l tr].
  simpl in *. subst run tgt idx.
  unfold reload, useTimer_init, load_settings, load_progress.
  unfold_timer; simpl.
  destruct (Z.eqb_spec e 0) as [|_]; [contradiction|]; simpl.
  rewrite (remaining_at_target Hnow); simpl.
  rewrite Z.eqb_refl.
  assert (Hsame : String.eqb (toDateString c) (toDateString later) = true)
    by (rewrite Hday; apply String.eqb_refl).
  destruct held; simpl; rewrite Hs, Hv; simpl; rewrite Hsame; simpl;
    eexists; (split; [reflexivity|]); simpl;
    (split; [reflexivity|]); (split; [reflexivity|]);
    (split; [reflexivity|]);
    unfold expire, notifications; unfold_timer; simpl;
    (destruct (Z.eqb_spec (Date_now c0 + workDuration cfg * 60 * 1000) 0)
       as [|_]; [lia|]); simpl;
    rewrite (remaining_at_target
               (Z.le_refl (Date_now c0 + workDuration cfg * 60 * 1000)));
    simpl; rewrite Z.eqb_refl; simpl; split; reflexivity.
Qed.

(** X14: a settings change made while running leaves the countdown and
    its target alone and takes effect at the next boundary: the session
    entered gets its duration from the changed settings. *)
Theorem settings_change_applies_at_next_boundary (w : World)
  (newSettings : PartialSettings) (c : Clock) (e : Z) :
  let merged := spread_settings (settings (state w)) newSettings in
  isRunning (state w) = true ->
  expectedEndTimeRef w = Some e -> e <> 0 -> e <= Date_now c ->
  currentInterval (state w) <> intervals merged * 2 ->
  let changed := exec (updateSettings newSettings) w in
  let crossed := exec (tick c) changed in
  let nextDuration :=
    if isWorkSession (state w) then breakDuration merged
    else workDuration merged in
  timeLeft (state changed) = timeLeft (state w)
  /\ expectedEndTimeRef changed = Some e
  /\ settings (state changed) = merged
  /\ timeLeft (state crossed) = nextDuration * 60
  /\ expectedEndTimeRef crossed
     = Some (Date_now c + nextDuration * 60 * 1000)
  /\ isWorkSession (state crossed) = negb (isWorkSession (state w)).
Proof.
  destruct w as [[tl run pau idx work cfg] tgt st lu held sup ls tr].
  cbv zeta; simpl. intros Hrun Htgt He Hnow Hlast. subst run tgt.
  unfold_timer; simpl.
  destruct (Z.eqb_spec e 0) as [|_]; [contradiction|]; simpl.
  rewrite (remaining_at_target Hnow); simpl.
  apply Z.eqb_neq in Hlast. rewrite Hlast.
  destruct work; simpl; repeat split; reflexivity.
Qed.

(** ** The display of the remaining time *)

(** Every time below a hundred minutes, checked one by one: the display
    has five characters and reads back as the time. *)
Lemma display_table :
  forallb (fun k : nat =>
             let s := Z.of_nat k in
             (String.length (formatTime s) =? 5)%nat
             && match read_display (formatTime s) with
                | Some v => v =? s
                | None => false
                end
             && match String.get 2 (formatTime s) with
                | Some c => Ascii.eqb c (Ascii.ascii_of_nat 58)
                | None => false
                end)
          (seq 0 (60 * 100)) = true.
Proof. vm_compute. reflexivity. Qed.

Lemma display_reads_back (s : Z) :
  0 <= s < 6000 ->
  String.length (formatTime s) = 5%nat
  /\ read_display (formatTime s) = Some s
  /\ String.get 2 (formatTime s) = String.get 0 ":".
Proof.
  intros Hs.
  pose proof display_table as H.
  rewrite forallb_forall in H.
  specialize (H (Z.to_nat s)).
  rewrite Z2Nat.id in H by lia.
  assert (Hin : In (Z.to_nat s) (seq 0 (60 * 100))) by (apply in_seq; lia).
  specialize (H Hin). cbv zeta in H.
  apply andb_prop in H. destruct H as [H H3].
  apply andb_prop in H. destruct H as [H1 H2].
  split; [apply Nat.eqb_eq; exact H1|]. split.
  - destruct (read_display (formatTime s)) as [v|]; [|discriminate H2].
    apply Z.eqb_eq in H2. now subst.
  - destruct (String.get 2 (formatTime s)) as [c|]; [|discriminate H3].
    apply Ascii.eqb_eq in H3. subst c. reflexivity.
Qed.

(** X15: below a hundred minutes the display is five characters with a
    colon in the middle, and different times are displayed
    differently. *)
Theorem formatTime_is_mm_ss (s s' : Z) :
  0 <= s < 6000 -> 0 <= s' < 6000 ->
  String.length (formatTime s) = 5%nat
  /\ String.get 2 (formatTime s) = String.get 0 ":"
  /\ (formatTime s = formatTime s' -> s = s').
Proof.
  intros Hs Hs'.
  destruct (display_reads_back Hs) as (L & R & C).
  destruct (display_reads_back Hs') as (_ & R' & _).
  repeat split; try assumption.
  intros Heq. rewrite Heq in R. congruence.
Qed.

(** ** The earlier revision *)

Ltac unfold_legacy :=
  unfold Legacy.expire, Legacy.tick, Legacy.updateTimer, Legacy.skipSession,
    Legacy.resetTimer in *;
  unfold_timer.

Lemma legacy_expire_advances (w : World) (e : Z) :
  isRunning (state w) = true ->
  expectedEndTimeRef w = Some e -> 0 < e ->
  0 < workDuration (settings (state w)) ->
  0 < breakDuration (settings (state w)) ->
  isWorkSession (state w)
  && (currentInterval (state w) =? intervals (settings (state w))) = false ->
  let w' := Legacy.expire w in
  isRunning (state w') = true
  /\ (exists e', expectedEndTimeRef w' = Some e' /\ 0 < e')
  /\ settings (state w') = settings (state w)
  /\ isWorkSession (state w') = negb (isWorkSession (state w))
  /\ currentInterval (state w') =
       (if isWorkSession (state w) then currentInterval (state w)
        else currentInterval (state w) + 1)
  /\ notifications w' = S (notifications w).
Proof.
  destruct w as [[tl run pau idx work cfg] tgt st lu held sup ls tr].
  cbv zeta; simpl. intros Hrun Htgt He Hw Hb Hlast. subst run tgt.
  unfold notifications; simpl. unfold_legacy; simpl.
  destruct (Z.eqb_spec e 0) as [|_]; [lia|]; simpl.
  rewrite (remaining_at_target (Z.le_refl e)); simpl.
  rewrite Hlast.
  destruct work; simpl.
  - split; [reflexivity|]. split; [eexists; split; [reflexivity | lia]|].
    repeat split; reflexivity.
  - split; [reflexivity|]. split; [eexists; split; [reflexivity | lia]|].
    repeat split; reflexivity.
Qed.

Lemma legacy_expire_completes (w : World) (e : Z) :
  isRunning (state w) = true ->
  expectedEndTimeRef w = Some e -> 0 < e ->
  isWorkSession (state w) = true ->
  currentInterval (state w) = intervals (settings (state w)) ->
  let w' := Legacy.expire w in
  state w' = completed (state w)
  /\ expectedEndTimeRef w' = None
  /\ notifications w' = S (notifications w)
  /\ localStorage w' = localStorage w.
Proof.
  destruct w as [[tl run pau idx work cfg] tgt st lu held sup ls tr].
  cbv zeta; simpl. intros Hrun Htgt He Hw Hlast. subst run tgt work idx.
  unfold notifications; simpl. unfold_legacy; simpl.
  destruct (Z.eqb_spec e 0) as [|_]; [lia|]; simpl.
  rewrite (remaining_at_target (Z.le_refl e)); simpl.
  rewrite Z.eqb_refl.
  destruct held; simpl; repeat split; reflexivity.
Qed.

Lemma legacy_expire_times_advance (k : nat) :
  forall (w : World) (e : Z),
  isRunning (state w) = true ->
  expectedEndTimeRef w = Some e -> 0 < e ->
  0 < workDuration (settings (state w)) ->
  0 < breakDuration (settings (state w)) ->
  2 * (currentInterval (state w) - 1)
  + (if isWorkSession (state w) then 0 else 1) + Z.of_nat k
  <= 2 * intervals (settings (state w)) - 2 ->
  let w' := Legacy.expire_times k w in
  isRunning (state w') = true
  /\ (exists e', expectedEndTimeRef w' = Some e' /\ 0 < e')
  /\ settings (state w') = settings (state w)
  /\ 2 * (currentInterval (state w') - 1)
     + (if isWorkSession (state w') then 0 else 1)
     = 2 * (currentInterval (state w) - 1)
       + (if isWorkSession (state w) then 0 else 1) + Z.of_nat k
  /\ notifications w' = (notifications w + k)%nat.
Proof.
  induction k as [|k IH]; intros w e Hrun Htgt He Hw Hb Hk; cbv zeta.
  - simpl. split; [exact Hrun|]. split; [exists e; split; assumption|].
    split; [reflexivity|]. split; [lia|]. lia.
  - simpl Legacy.expire_times.
    assert (Hlast : isWorkSession (state w)
                    && (currentInterval (state w)
                        =? intervals (settings (state w))) = false).
    { destruct (isWorkSession (state w)); [|reflexivity]. simpl.
      apply Z.eqb_neq. lia. }
    destruct (@legacy_expire_advances w e Hrun Htgt He Hw Hb Hlast)
      as (R1 & (e' & T1 & T2) & S1 & K1 & I1 & N1).
    destruct (IH (Legacy.expire w) e' R1 T1 T2) as (R2 & T3 & S2 & P2 & N2).
    + rewrite S1; exact Hw.
    + rewrite S1; exact Hb.
    + rewrite S1, K1, I1.
      destruct (isWorkSession (state w)); cbn [negb]; lia.
    + split; [exact R2|]. split; [exact T3|].
      split; [congruence|]. split.
      * rewrite P2, K1, I1.
        destruct (isWorkSession (state w)); cbn [negb]; lia.
      * rewrite N2, N1. lia.
Qed.

(** X16: in the earlier revision the same run stays running through
    [2 * intervals - 2] expiries and closes the cycle when the last work
    session expires, at expiry [2 * intervals - 1], with no break after
    it. *)
Theorem legacy_cycle_closes_after_2n_minus_1_sessions (w : World) (e : Z) :
  let n := intervals (settings (state w)) in
  isRunning (state w) = true ->
  expectedEndTimeRef w = Some e -> 0 < e ->
  0 < workDuration (settings (state w)) ->
  0 < breakDuration (settings (state w)) ->
  1 <= n ->
  currentInterval (state w) = 1 ->
  isWorkSession (state w) = true ->
  (forall k : nat, Z.of_nat k <= 2 * n - 2 ->
     let wk := Legacy.expire_times k w in
     status (state wk) = Running
     /\ currentInterval (state wk) = 1 + Z.of_nat k / 2
     /\ isWorkSession (state wk) = Z.even (Z.of_nat k)
     /\ notifications wk = (notifications w + k)%nat)
  /\ state (Legacy.expire_times (Z.to_nat (2 * n - 1)) w)
     = completed (state w)
  /\ notifications (Legacy.expire_times (Z.to_nat (2 * n - 1)) w)
     = (notifications w + Z.to_nat (2 * n - 1))%nat.
Proof.
  cbv zeta. intros Hrun Htgt He Hw Hb Hn Hidx Hwork.
  assert (Hk : forall k : nat,
             Z.of_nat k <= 2 * intervals (settings (state w)) - 2 ->
             isRunning (state (Legacy.expire_times k w)) = true
             /\ (exists e', expectedEndTimeRef (Legacy.expire_times k w)
                            = Some e' /\ 0 < e')
             /\ settings (state (Legacy.expire_times k w))
                = settings (state w)
             /\ currentInterval (state (Legacy.expire_times k w))
                = 1 + Z.of_nat k / 2
             /\ isWorkSession (state (Legacy.expire_times k w))
                = Z.even (Z.of_nat k)
             /\ notifications (Legacy.expire_times k w)
                = (notifications w + k)%nat).
  { intros k Hle.
    destruct (@legacy_expire_times_advance k w e Hrun Htgt He Hw Hb)
      as (R & T & S & P & N).
    - rewrite Hidx, Hwork. lia.
    - rewrite Hidx, Hwork in P.
      split; [exact R|]. split; [exact T|]. split; [exact S|].
      split; [|split; [|exact N]].
      + pose proof (Z.div_mod (Z.of_nat k) 2 ltac:(lia)) as Hdm.
        pose proof (Z.mod_pos_bound (Z.of_nat k) 2 ltac:(lia)) as Hb2.
        destruct (isWorkSession (state (Legacy.expire_times k w))); lia.
      + rewrite (Zeven_mod (Z.of_nat k)).
        pose proof (Z.div_mod (Z.of_nat k) 2 ltac:(lia)) as Hdm.
        pose proof (Z.mod_pos_bound (Z.of_nat k) 2 ltac:(lia)) as Hb2.
        destruct (isWorkSession (state (Legacy.expire_times k w)));
          destruct (Z.eqb_spec (Z.of_nat k mod 2) 0); try reflexivity; lia. }
  split.
  - intros k Hle. destruct (Hk k Hle) as (R & _ & _ & I & K & N).
    unfold status. rewrite R. repeat split; assumption.
  - replace (Z.to_nat (2 * intervals (settings (state w)) - 1))
      with (Z.to_nat (2 * intervals (settings (state w)) - 2) + 1)%nat by lia.
    set (k := Z.to_nat (2 * intervals (settings (state w)) - 2)).
    assert (Hle : Z.of_nat k <= 2 * intervals (settings (state w)) - 2)
      by (unfold k; lia).
    destruct (Hk k Hle) as (R & (e' & T1 & T2) & S & I & K & N).
    assert (Hsplit : forall a b v,
               Legacy.expire_times (a + b) v
               = Legacy.expire_times b (Legacy.expire_times a v)).
    { induction a; intros b v; simpl; [reflexivity | apply IHa]. }
    rewrite Hsplit. simpl Legacy.expire_times.
    set (wk := Legacy.expire_times k w) in *.
    assert (Hi : currentInterval (state wk) = intervals (settings (state wk))).
    { rewrite I, S. unfold k. rewrite Z2Nat.id by lia.
      replace (2 * intervals (settings (state w)) - 2)
        with ((intervals (settings (state w)) - 1) * 2) by ring.
      rewrite Z.div_mul by lia. lia. }
    assert (Hwk : isWorkSession (state wk) = true).
    { rewrite K. unfold k. rewrite Z2Nat.id by lia.
      replace (2 * intervals (settings (state w)) - 2)
        with (2 * (intervals (settings (state w)) - 1)) by ring.
      rewrite Z.even_mul. reflexivity. }
    destruct (@legacy_expire_completes wk e' R T1 T2 Hwk Hi)
      as (C1 & _ & C2 & _).
    split.
    + rewrite C1. unfold completed. rewrite S. reflexivity.
    + rewrite C2, N. lia.
Qed.

(** X17: the earlier initialiser takes the stored settings, or its own
    defaults when none are stored, and always starts idle on the first work
    session.  It throws [SyntaxError] exactly on a non-empty text that
    [JSON.parse] rejects, and [TypeError] exactly on the text [null],
    which is parsed and then read. *)
Theorem legacy_init_cases (ls : Storage) :
  (Legacy.useTimer_init ls = Throw SyntaxError
   <-> pomodoro_settings ls = Some Garbled)
  /\ (Legacy.useTimer_init ls = Throw TypeError
      <-> pomodoro_settings ls = Some Null)
  /\ (forall cfg, pomodoro_settings ls = Some (Encoded cfg) ->
        Legacy.useTimer_init ls
        = Normal {| timeLeft := workDuration cfg * 60;
                    isRunning := false;
                    isPaused := false;
                    currentInterval := 1;
                    isWorkSession := true;
                    settings := cfg |})
  /\ (pomodoro_settings ls = None \/ pomodoro_settings ls = Some Blank ->
      Legacy.useTimer_init ls
      = Normal {| timeLeft := 1500;
                  isRunning := false;
                  isPaused := false;
                  currentInterval := 1;
                  isWorkSession := true;
                  settings := Legacy.defaultSettings |})
  /\ (forall s, Legacy.useTimer_init ls = Normal s ->
        currentInterval s = 1 /\ isWorkSession s = true
        /\ timeLeft s = workDuration (settings s) * 60
        /\ status s = Idle).
Proof.
  unfold Legacy.useTimer_init.
  destruct ls as [[[| | |cfg]|] pv vv]; simpl.
  all: split; [split; intros H; first [discriminate H | reflexivity]|].
  all: split; [split; intros H; first [discriminate H | reflexivity]|].
  all: split; [intros c H; first [discriminate H | injection H as <-];
               reflexivity|].
  all: split; [intros [H | H]; first [discriminate H | reflexivity]|].
  all: intros s H; first [discriminate H | injection H as <-];
       repeat split; reflexivity.
Qed.

(** ** The properties above at work on the sample worlds *)

Lemma countdown_follows_the_clock_witness :
  0 < 1000
  /\ timeLeft (state (exec (tick (mkClock 3500 monday)) classic_started))
     = 1498.
Proof.
  split; [reflexivity|].
  pose proof (@countdown_follows_the_clock classic_world
                (mkClock 1000 monday) (mkClock 3500 monday)) as H.
  cbv zeta in H.
  destruct H as (_ & H & _);
    [ reflexivity | split; vm_compute; [discriminate | reflexivity] | ].
  exact H.
Defined.

Lemma ticks_before_target_leave_no_mark_witness :
  expectedEndTimeRef classic_started = Some 1501000
  /\ exec (tick (mkClock 1502000 monday))
          (exec (tick (mkClock 3500 monday)) classic_started)
     = exec (tick (mkClock 1502000 monday)) classic_started.
Proof.
  split; [reflexivity|].
  pose proof (@ticks_before_target_leave_no_mark classic_started
                (mkClock 3500 monday) (mkClock 1502000 monday) 1501000) as H.
  cbv zeta in H.
  destruct H as (_ & _ & H);
    [ reflexivity | reflexivity | discriminate | reflexivity | ].
  exact H.
Defined.

Lemma skip_on_last_index_completes_witness :
  currentInterval (state last_session_world) = 8
  /\ state (exec (skipSession (mkClock 5000 monday)) last_session_world)
     = completed (state last_session_world)
  /\ expectedEndTimeRef
       (exec (skipSession (mkClock 5000 monday)) last_session_world)
     = Some 1501000.
Proof.
  split; [reflexivity|].
  pose proof (@skip_on_last_index_completes (mkClock 5000 monday)
                last_session_world) as H.
  cbv zeta in H.
  destruct H as (H1 & _ & _ & _ & _ & H2 & _); [reflexivity|].
  split; [exact H1 | exact H2].
Defined.

Lemma never_running_and_paused_witness :
  mounted (mkClock 1000 monday) classic_store = Some classic_world
  /\ isRunning (state (run [Start (mkClock 1000 monday); Pause;
                            Start (mkClock 9000 monday)] classic_world))
     && isPaused (state (run [Start (mkClock 1000 monday); Pause;
                              Start (mkClock 9000 monday)] classic_world))
     = false.
Proof.
  split; [reflexivity|].
  apply (@never_running_and_paused (mkClock 1000 monday) classic_store
           classic_world).
  reflexivity.
Defined.

Lemma controls_keep_settings_witness :
  settings (state (run [Start (mkClock 1000 monday);
                        Tick (mkClock 1501000 monday);
                        Skip (mkClock 1502000 monday);
                        Reset (mkClock 1503000 monday)] classic_world))
  = classic.
Proof.
  apply (proj1 (@controls_keep_settings
                  [Start (mkClock 1000 monday);
                   Tick (mkClock 1501000 monday);
                   Skip (mkClock 1502000 monday);
                   Reset (mkClock 1503000 monday)] classic_world
                  eq_refl)).
Defined.

Lemma index_stays_in_cycle_witness :
  1 <= currentInterval
         (state (run [Start (mkClock 1000 monday);
                      Tick (mkClock 1501000 monday);
                      Skip (mkClock 1502000 monday)] classic_world))
    <= 8.
Proof.
  apply (@index_stays_in_cycle
           [Start (mkClock 1000 monday);
            Tick (mkClock 1501000 monday);
            Skip (mkClock 1502000 monday)] classic_world).
  - reflexivity.
  - vm_compute; discriminate.
  - split; vm_compute; discriminate.
Defined.

Lemma overshot_index_never_completes_witness :
  intervals (settings (state overshot_world)) * 2
  < currentInterval (state overshot_world)
  /\ 9 <= currentInterval
            (state (run [Start (mkClock 1000 monday);
                         Tick (mkClock 1501000 monday);
                         Skip (mkClock 1502000 monday)] overshot_world)).
Proof.
  split; [reflexivity|].
  apply (proj1 (@overshot_index_never_completes
                  [Start (mkClock 1000 monday);
                   Tick (mkClock 1501000 monday);
                   Skip (mkClock 1502000 monday)] overshot_world
                  eq_refl eq_refl)).
Defined.

Lemma reload_restores_settings_witness :
  mounted (mkClock 1000 monday) classic_store = Some classic_world
  /\ exists s,
       useTimer_init (mkClock 7000 monday)
         (localStorage
            (run [UpdateSettings
                    (mkPartial (Some 30) None None None None None);
                  Start (mkClock 1000 monday)] classic_world))
       = (Normal s,
          localStorage
            (run [UpdateSettings
                    (mkPartial (Some 30) None None None None None);
                  Start (mkClock 1000 monday)] classic_world))
       /\ workDuration (settings s) = 30.
Proof.
  split; [reflexivity|].
  destruct (@reload_restores_settings (mkClock 1000 monday) classic_store
              classic_world
              [UpdateSettings (mkPartial (Some 30) None None None None None);
               Start (mkClock 1000 monday)]
              (mkClock 7000 monday) eq_refl) as (s & H1 & H2 & _).
  exists s. split; [exact H1|]. rewrite H2. reflexivity.
Defined.

Lemma saved_progress_lasts_the_day_witness :
  mounted (mkClock 1000 monday) classic_store = Some classic_world
  /\ exists s,
       reload (mkClock 7000 monday)
         (exec (saveProgress (mkClock 5000 monday) 3)
               (run [Start (mkClock 1000 monday)] classic_world))
       = Normal s
       /\ currentInterval s = 3.
Proof.
  split; [reflexivity|].
  destruct (@saved_progress_lasts_the_day (mkClock 1000 monday) classic_store
              classic_world [Start (mkClock 1000 monday)]
              (mkClock 5000 monday) (mkClock 7000 monday) 3 eq_refl)
    as (s & H1 & H2 & _).
  exists s. split; [exact H1 | exact H2].
Defined.

Lemma reload_after_completion_ends_at_first_expiry_witness :
  mounted (mkClock 1000 monday) evening_store = Some evening_world
  /\ exists s,
       reload (mkClock 1600000 monday)
         (exec (tick (mkClock 1502000 monday))
               (run [Start (mkClock 1000 monday)] evening_world))
       = Normal s
       /\ currentInterval s = 8
       /\ isWorkSession s = true.
Proof.
  split; [reflexivity|].
  destruct (@reload_after_completion_ends_at_first_expiry
              (mkClock 1000 monday) evening_store evening_world
              [Start (mkClock 1000 monday)]
              (mkClock 1502000 monday) (mkClock 1600000 monday)
              (mkClock 1700000 monday) 1501000 eq_refl)
    as (s & H1 & H2 & H3 & _);
    [ reflexivity | reflexivity | discriminate | vm_compute; discriminate
    | reflexivity | reflexivity | reflexivity | vm_compute; discriminate | ].
  exists s. split; [exact H1|]. split; [exact H2 | exact H3].
Defined.

Lemma cycle_closes_after_4n_minus_1_sessions_witness :
  expectedEndTimeRef classic_started = Some 1501000
  /\ state (expire_times (Z.to_nat (4 * 4 - 1)) monday classic_started)
     = completed (state classic_started).
Proof.
  split; [reflexivity|].
  pose proof (@cycle_closes_after_4n_minus_1_sessions monday classic_started
                1501000) as H.
  cbv zeta in H.
  destruct H as (_ & H & _);
    [ reflexivity | reflexivity | reflexivity | reflexivity | reflexivity
    | vm_compute; discriminate | reflexivity | reflexivity | ].
  exact H.
Defined.

Lemma settings_change_restarts_paused_session_witness :
  let louder := mkPartial None None None (Some 80) None None in
  let paused := exec pauseTimer
                  (exec (tick (mkClock 601000 monday)) classic_started) in
  timeLeft (state paused) = 900
  /\ timeLeft (state (exec (updateSettings louder) paused)) = 1500.
Proof.
  cbv zeta.
  pose proof (@settings_change_restarts_paused_session classic_started
                (mkClock 601000 monday) 1501000
                (mkPartial None None None (Some 80) None None)) as H.
  cbv zeta in H.
  destruct H as (H1 & _ & _ & H2 & _);
    [ reflexivity | reflexivity | discriminate | reflexivity | reflexivity
    | reflexivity | ].
  split; [exact H1 | exact H2].
Defined.

Lemma resync_before_target_is_a_tick_witness :
  isRunning (state classic_started) = true
  /\ exec (handleVisibilityChange (mkClock 601000 monday)) classic_started
     = exec (tick (mkClock 601000 monday)) classic_started.
Proof.
  split; [reflexivity|].
  apply (@resync_before_target_is_a_tick classic_started
           (mkClock 601000 monday) 1501000);
    [ reflexivity | reflexivity | discriminate | reflexivity ].
Defined.

Lemma settings_change_applies_at_next_boundary_witness :
  let longer := mkPartial None (Some 10) None None None None in
  let changed := exec (updateSettings longer) classic_started in
  timeLeft (state changed) = 1500
  /\ timeLeft (state (exec (tick (mkClock 1501000 monday)) changed)) = 600.
Proof.
  cbv zeta.
  pose proof (@settings_change_applies_at_next_boundary classic_started
                (mkPartial None (Some 10) None None None None)
                (mkClock 1501000 monday) 1501000) as H.
  cbv zeta in H.
  destruct H as (H1 & _ & _ & H2 & _);
    [ reflexivity | reflexivity | discriminate | vm_compute; discriminate
    | vm_compute; discriminate | ].
  split; [exact H1 | exact H2].
Defined.

Lemma formatTime_is_mm_ss_witness :
  0 <= 1498 < 6000
  /\ String.length (formatTime 1498) = 5%nat
  /\ (formatTime 1498 = formatTime 1499 -> 1498 = 1499).
Proof.
  assert (H1 : 0 <= 1498 < 6000) by lia.
  assert (H2 : 0 <= 1499 < 6000) by lia.
  split; [exact H1|].
  destruct (@formatTime_is_mm_ss 1498 1499 H1 H2) as (L & _ & I).
  split; [exact L | exact I].
Defined.

Lemma legacy_cycle_closes_after_2n_minus_1_sessions_witness :
  expectedEndTimeRef classic_started = Some 1501000
  /\ state (Legacy.expire_times (Z.to_nat (2 * 4 - 1)) classic_started)
     = completed (state classic_started).
Proof.
  split; [reflexivity|].
  pose proof (@legacy_cycle_closes_after_2n_minus_1_sessions classic_started
                1501000) as H.
  cbv zeta in H.
  destruct H as (_ & H & _);
    [ reflexivity | reflexivity | reflexivity | reflexivity | reflexivity
    | vm_compute; discriminate | reflexivity | reflexivity | ].
  exact H.
Defined.

Lemma legacy_init_cases_witness :
  pomodoro_settings classic_store = Some (Encoded classic)
  /\ exists s, Legacy.useTimer_init classic_store = Normal s
               /\ settings s = classic
               /\ currentInterval s = 1.
Proof.
  split; [reflexivity|].
  destruct (legacy_init_cases classic_store) as (_ & _ & H & _).
  eexists. split; [exact (H classic eq_refl)|]. split; reflexivity.
Defined.

(** ** The remaining time is never negative *)

Lemma remaining_nonneg_step (a : Action) (w : World) :
  keeps_settings a = true ->
  0 <= workDuration (settings (state w)) ->
  0 <= breakDuration (settings (state w)) ->
  0 <= timeLeft (state w) ->
  0 <= timeLeft (state (exec (perform a) w)).
Proof.
  by_cases_on a w; intros Ha Hw Hb Ht; try discriminate Ha; lia.
Qed.

(** X18: with durations that are not negative, the remaining time stays
    at or above zero through every run that does not change the settings,
    however the clock readings fall. *)
Theorem remaining_time_never_negative (actions : list Action) (w : World) :
  forallb keeps_settings actions = true ->
  0 <= workDuration (settings (state w)) ->
  0 <= breakDuration (settings (state w)) ->
  0 <= timeLeft (state w) ->
  0 <= timeLeft (state (run actions w)).
Proof.
  intros Hok Hw Hb Ht.
  apply (@run_invariant
           (fun w' => settings (state w') = settings (state w)
                      /\ 0 <= timeLeft (state w'))
           keeps_settings); [| exact Hok | split; [reflexivity | exact Ht]].
  intros a w' Ha [Hs Hr].
  destruct (settings_step a w' Ha) as (E1 & _).
  split; [congruence|].
  apply remaining_nonneg_step; try assumption; rewrite Hs; assumption.
Qed.

Lemma remaining_time_never_negative_witness :
  0 <= timeLeft
         (state (run [Start (mkClock 1000 monday);
                      Tick (mkClock 9999000 monday);
                      VisibilityChange (mkClock 500 monday);
                      Skip (mkClock 1502000 monday)] classic_world)).
Proof.
  apply (@remaining_time_never_negative
           [Start (mkClock 1000 monday);
            Tick (mkClock 9999000 monday);
            VisibilityChange (mkClock 500 monday);
            Skip (mkClock 1502000 monday)] classic_world).
  - reflexivity.
  - vm_compute; discriminate.
  - vm_compute; discriminate.
  - vm_compute; discriminate.
Defined.
